(** * call_deepseek_chat: the retrying chat-completions helper

    A shallow embedding of [src/Model/call_deepseek_chat.py].  The function
    talks to three ambient facilities: the process environment
    ([os.getenv]), the HTTP transport ([requests.post]) and the clock
    ([time.sleep]).  The environment is a finite map, the transport is a
    deterministic oracle indexed by the number of earlier invocations, and
    every invocation and every sleep is appended to a chronological trace,
    so that "how often was the transport called" and "did the client sleep
    after the last attempt" are statements about that trace.

    After the function come the script under [if __name__ == "__main__"] of
    the same file, with the subscriptions it applies to the decoded answer,
    and the loop of [utils.py] that builds [user_map] from the rows of
    user.csv. *)

From Stdlib Require Import ZArith String Ascii Floats.
From stdpp Require Import base option list list_numbers strings gmap.

Set Warnings "-register-all,-inexact-float".
Local Open Scope Z_scope.

(** ** Python data *)

(** [requests.Response]: the two attributes the function reads. *)
Record Response := mkResponse { status_code : Z; text : string }.

(** The exceptions that can travel through the function.  [ValueError] and
    [RuntimeError] carry their [__cause__] (the operand of [raise ... from]). *)
Inductive PyExc : Type :=
| ConnectionError (msg : string)
| ReadTimeout (msg : string)
| HTTPError (response : Response)
| JSONDecodeError (doc : string)
| ValueError (msg : string) (cause : option PyExc)
| RuntimeError (msg : string) (cause : option PyExc).

(** Values stored in the request payload: [str], [int], [float] and the
    message list, a [List[Dict[str, str]]]. *)
Inductive PyVal : Type :=
| PyStr (s : string)
| PyInt (n : Z)
| PyFloat (x : float)
| PyMessages (ms : list (gmap string string)).

(** The keyword arguments of [requests.post] as the function passes them. *)
Record Request := mkRequest {
  url : string;
  headers : gmap string string;
  json : gmap string PyVal;
  timeout : Z
}.

(** The keyword-only parameters of [call_deepseek_chat] and their defaults. *)
Record Kwargs := mkKwargs {
  api_key : option string;
  model : string;
  temperature : float;
  max_tokens : Z;
  timeout_s : Z;
  max_retries : Z
}.

Definition defaults : Kwargs :=
  {| api_key := None;
     model := "deepseek-chat";
     temperature := 0.7%float;
     max_tokens := 512;
     timeout_s := 60;
     max_retries := 3 |}.

Definition with_api_key (key : option string) (kw : Kwargs) : Kwargs :=
  {| api_key := key;
     model := model kw;
     temperature := temperature kw;
     max_tokens := max_tokens kw;
     timeout_s := timeout_s kw;
     max_retries := max_retries kw |}.

Definition with_max_retries (n : Z) (kw : Kwargs) : Kwargs :=
  {| api_key := api_key kw;
     model := model kw;
     temperature := temperature kw;
     max_tokens := max_tokens kw;
     timeout_s := timeout_s kw;
     max_retries := n |}.

(** ** Effects *)

(** What one invocation of the transport does: hand back a response, or
    raise. *)
Inductive PostResult : Type :=
| Responds (resp : Response)
| Fails (e : PyExc).

Inductive Event : Type :=
| EvPost (req : Request)
| EvSleep (secs : Z).

Definition posts (t : list Event) : list Request :=
  omap (λ ev, match ev with EvPost r => Some r | EvSleep _ => None end) t.

Definition sleeps (t : list Event) : list Z :=
  omap (λ ev, match ev with EvSleep s => Some s | EvPost _ => None end) t.

(** A computation either yields a value or raises; the trace survives both. *)
Inductive Outcome (A : Type) : Type :=
| Ok (a : A)
| Raise (e : PyExc).
Arguments Ok {A} a.
Arguments Raise {A} e.

Definition Py (A : Type) : Type := list Event → Outcome A * list Event.

#[global] Instance Py_ret : MRet Py := λ A a t, (Ok a, t).

#[global] Instance Py_bind : MBind Py := λ A B f m t,
  match m t with
  | (Ok a, t') => f a t'
  | (Raise e, t') => (Raise e, t')
  end.

Definition raise {A : Type} (e : PyExc) : Py A := λ t, (Raise e, t).

(** [try: body except Exception as e: handler e]. *)
Definition try_except {A : Type} (body : Py A) (handler : PyExc → Py A) : Py A :=
  λ t, match body t with
       | (Ok a, t') => (Ok a, t')
       | (Raise e, t') => handler e t'
       end.

Definition time_sleep (secs : Z) : Py unit := λ t, (Ok (), t ++ [EvSleep secs]).

(** ** Builtins *)

(** Truthiness of an [Optional[str]]: [None] and the empty string are falsy. *)
Definition truthy (s : option string) : bool :=
  match s with
  | Some (String _ _) => true
  | Some EmptyString | None => false
  end.

(** [a or b]. *)
Definition py_or (a b : option string) : option string :=
  if truthy a then a else b.

(** [str(x)] as an f-string renders an [Optional[str]]. *)
Definition py_str (s : option string) : string :=
  match s with Some v => v | None => "None" end.

(** [range(lo, hi)]. *)
Definition range (lo hi : Z) : list Z := seqZ lo (hi - lo).

(** [s[:n]]: the first [n] characters, all of [s] when it is shorter.  A
    character is one element of the string: the model agrees with Python on
    text whose characters each fit one element (ASCII), and would cut by
    bytes a text written out as UTF-8. *)
Definition prefix_chars (n : nat) (s : string) : string := substring 0 n s.

(** [status in (429, 500, 502, 503, 504)]. *)
Definition retriable_status (status : Z) : bool :=
  bool_decide (status ∈ [429; 500; 502; 503; 504]).

(** [min(2 ** (attempt - 1), 8)]. *)
Definition backoff (attempt : Z) : Z := Z.min (2 ^ (attempt - 1)) 8.

(** [Response.raise_for_status] of the requests library: an [HTTPError] for
    every 4xx and 5xx status, nothing otherwise. *)
Definition raise_for_status (resp : Response) : Py unit :=
  if bool_decide (400 ≤ status_code resp < 600)
  then raise (HTTPError resp)
  else mret ().

(** ** Test doubles *)

(** A transport that plays a script, whatever the request, and then keeps
    giving one answer. *)
Definition scripted (script : list PostResult) (otherwise : PostResult)
    : nat → Request → PostResult :=
  λ n _, default otherwise (script !! n).

(** A transport whose every invocation is refused, each time with a message
    of its own. *)
Definition refusing : nat → Request → PostResult :=
  λ n _, Fails (ConnectionError
                  match n with
                  | 0%nat => "refused (1)"
                  | 1%nat => "refused (2)"
                  | _ => "refused (3)"
                  end).

(** A decoder that accepts the bodies opening with a brace and hands them
    back as they are. *)
Definition brace_loads (body : string) : option string :=
  match body with
  | String "{" _ => Some body
  | _ => None
  end.

Definition chat_url : string := "https://api.deepseek.com/v1/chat/completions".

Definition hi : list (gmap string string) :=
  [ <["role" := "user"]> (<["content" := "hi"]> ∅) ].

(** The defaults with an explicit key. *)
Definition keyed : Kwargs := with_api_key (Some "sk-test") defaults.

(** The request the client builds for [hi] under [keyed]. *)
Definition hi_request : Request :=
  {| url := chat_url;
     headers :=
       <["Authorization" := "Bearer sk-test"]>
       (<["Content-Type" := "application/json"]>
       (<["Accept" := "application/json"]> ∅));
     json :=
       <["model" := PyStr "deepseek-chat"]>
       (<["messages" := PyMessages hi]>
       (<["temperature" := PyFloat 0.7%float]>
       (<["max_tokens" := PyInt 512]> ∅)));
     timeout := 60 |}.

Section Client.

(** The decoded response type and the decoder behind [Response.json]. *)
Variable JSON : Type.
Variable json_loads : string → option JSON.

(** [os.environ]. *)
Variable environ : gmap string string.

(** The transport behind [requests.post]: its answer to the request made
    after [n] earlier invocations. *)
Variable transport : nat → Request → PostResult.

Definition os_getenv (name : string) : option string := environ !! name.

Definition requests_post (req : Request) : Py Response := λ t,
  match transport (length (posts t)) req with
  | Responds resp => (Ok resp, t ++ [EvPost req])
  | Fails e => (Raise e, t ++ [EvPost req])
  end.

(** [resp.json()]. *)
Definition response_json (resp : Response) : Py JSON :=
  match json_loads (text resp) with
  | Some v => mret v
  | None => raise (JSONDecodeError (text resp))
  end.

(** How one pass through the loop body ends when it does not raise. *)
Inductive Flow : Type :=
| Continue
| Return (v : JSON).

(** Lines 70-89: the statements under the outer [try]. *)
Definition try_block (req : Request) (attempt : Z) : Py Flow :=
  resp ← requests_post req;
  if retriable_status (status_code resp) then
    let wait_s := backoff attempt in
    _ ← time_sleep wait_s;
    mret Continue
  else
    _ ← raise_for_status resp;
    try_except
      (v ← response_json resp; mret (Return v))
      (λ e, raise (ValueError
                     ("Endpoint returned non-JSON: " +:+ prefix_chars 200 (text resp))
                     (Some e))).

(** Lines 69-97: one iteration; the second component is [last_err]. *)
Definition loop_body (req : Request) (max_retries : Z) (attempt : Z)
    (last_err : option PyExc) : Py (Flow * option PyExc) :=
  try_except
    (flow ← try_block req attempt; mret (flow, last_err))
    (λ e,
      let last_err := Some e in
      if bool_decide (attempt < max_retries) then
        _ ← time_sleep (backoff attempt);
        mret (Continue, last_err)
      else raise e).

(** Line 68: the [for] loop over the attempt numbers.  [None] in the first
    component means the loop ran off its end. *)
Fixpoint for_attempts (req : Request) (max_retries : Z) (attempts : list Z)
    (last_err : option PyExc) : Py (option JSON * option PyExc) :=
  match attempts with
  | [] => mret (None, last_err)
  | attempt :: rest =>
      '(flow, last_err) ← loop_body req max_retries attempt last_err;
      match flow with
      | Continue => for_attempts req max_retries rest last_err
      | Return v => mret (Some v, last_err)
      end
  end.

(** Lines 47-52. *)
Definition build_headers (key : option string) : gmap string string :=
  <["Authorization" := "Bearer " +:+ py_str key]>
  (<["Content-Type" := "application/json"]>
  (<["Accept" := "application/json"]> ∅)).

(** Lines 54-64. *)
Definition build_payload (messages : list (gmap string string)) (kw : Kwargs)
    : gmap string PyVal :=
  <["model" := PyStr (model kw)]>
  (<["messages" := PyMessages messages]>
  (<["temperature" := PyFloat (temperature kw)]>
  (<["max_tokens" := PyInt (max_tokens kw)]> ∅))).

Definition call_deepseek_chat (deepseekModelEndpoint : string)
    (messages : list (gmap string string)) (kw : Kwargs) : Py JSON :=
  let api_key := py_or (api_key kw) (os_getenv "DEEPSEEK_API_KEY") in
  if negb (truthy api_key) then
    raise (ValueError
             "Missing api_key. Pass api_key=... or set DEEPSEEK_API_KEY env var."
             None)
  else
    let headers := build_headers api_key in
    let payload := build_payload messages kw in
    let req := mkRequest deepseekModelEndpoint headers payload (timeout_s kw) in
    '(result, last_err) ←
      for_attempts req (max_retries kw) (range 1 (max_retries kw + 1)) None;
    match result with
    | Some v => mret v
    | None => raise (RuntimeError "Request failed" last_err)
    end.

(** ** The loop body, read off the transport's answer *)

(** What the statements under [try] make of one answer of the transport. *)
Inductive Verdict : Type :=
| Retriable
| Success (v : JSON)
| Failure (e : PyExc).

Definition verdict (r : PostResult) : Verdict :=
  match r with
  | Fails e => Failure e
  | Responds resp =>
      if retriable_status (status_code resp) then Retriable
      else if bool_decide (400 ≤ status_code resp < 600) then Failure (HTTPError resp)
      else match json_loads (text resp) with
           | Some v => Success v
           | None =>
               Failure (ValueError
                          ("Endpoint returned non-JSON: " +:+ prefix_chars 200 (text resp))
                          (Some (JSONDecodeError (text resp))))
           end
  end.

(** The events of a run of attempts that all ended in a backoff sleep. *)
Definition retry_trace (req : Request) (attempts : list Z) : list Event :=
  attempts ≫= λ attempt, [EvPost req; EvSleep (backoff attempt)].

(** The request every attempt sends. *)
Definition request_of (endpoint : string) (messages : list (gmap string string))
    (kw : Kwargs) : Request :=
  mkRequest endpoint
    (build_headers (py_or (api_key kw) (os_getenv "DEEPSEEK_API_KEY")))
    (build_payload messages kw)
    (timeout_s kw).

(** The [ValueError] of line 45. *)
Definition missing_api_key : PyExc :=
  ValueError "Missing api_key. Pass api_key=... or set DEEPSEEK_API_KEY env var." None.

(** The [ValueError] of line 89 for a response whose body does not decode. *)
Definition non_json (resp : Response) : PyExc :=
  ValueError ("Endpoint returned non-JSON: " +:+ prefix_chars 200 (text resp))
             (Some (JSONDecodeError (text resp))).

(** ** Builtins, trace and loop lemmas *)

(** [s[:n]] is an initial segment of [s], [n] characters long unless [s]
    itself is shorter. *)
Lemma prefix_chars_spec n s :
  (∃ rest, s = prefix_chars n s +:+ rest)
  ∧ String.length (prefix_chars n s) = (n `min` String.length s)%nat.
Proof.
  unfold prefix_chars. revert s. induction n as [|n IH]; intros s.
  - destruct s; (split; [by eexists|done]).
  - destruct s as [|c s]; [split; [by exists ""|done]|].
    destruct (IH s) as [[rest Hrest] Hlen]. simpl. split.
    + exists rest. by rewrite Hrest at 1.
    + by rewrite Hlen.
Qed.

Example backoff_schedule : backoff <$> seqZ 1 6 = [1; 2; 4; 8; 8; 8].
Proof. reflexivity. Qed.

Example range_of_three_retries : range 1 (3 + 1) = [1; 2; 3].
Proof. reflexivity. Qed.

Lemma posts_app t1 t2 : posts (t1 ++ t2) = posts t1 ++ posts t2.
Proof. apply omap_app. Qed.

Lemma sleeps_app t1 t2 : sleeps (t1 ++ t2) = sleeps t1 ++ sleeps t2.
Proof. apply omap_app. Qed.

Lemma posts_retry_trace req attempts :
  posts (retry_trace req attempts) = replicate (length attempts) req.
Proof.
  induction attempts as [|a l IH]; [done|].
  unfold retry_trace in *. rewrite bind_cons, posts_app, IH. done.
Qed.

Lemma sleeps_retry_trace req attempts :
  sleeps (retry_trace req attempts) = backoff <$> attempts.
Proof.
  induction attempts as [|a l IH]; [done|].
  unfold retry_trace in *. rewrite bind_cons, sleeps_app, IH. done.
Qed.

Lemma retry_trace_app req l1 l2 :
  retry_trace req (l1 ++ l2) = retry_trace req l1 ++ retry_trace req l2.
Proof. apply bind_app. Qed.

Lemma try_block_verdict req attempt t :
  try_block req attempt t =
  match verdict (transport (length (posts t)) req) with
  | Retriable => (Ok Continue, t ++ [EvPost req; EvSleep (backoff attempt)])
  | Success v => (Ok (Return v), t ++ [EvPost req])
  | Failure e => (Raise e, t ++ [EvPost req])
  end.
Proof.
  unfold try_block, verdict, mbind, Py_bind, requests_post.
  destruct (transport _ req) as [resp|e]; [|done].
  destruct (retriable_status _).
  { unfold time_sleep, mret, Py_ret. by rewrite <- app_assoc. }
  unfold raise_for_status. case_bool_decide; [done|].
  unfold mret, Py_ret, try_except, response_json.
  by destruct (json_loads _).
Qed.

Lemma loop_body_verdict req max_retries attempt last_err t :
  loop_body req max_retries attempt last_err t =
  match verdict (transport (length (posts t)) req) with
  | Retriable =>
      (Ok (Continue, last_err), t ++ [EvPost req; EvSleep (backoff attempt)])
  | Success v => (Ok (Return v, last_err), t ++ [EvPost req])
  | Failure e =>
      if bool_decide (attempt < max_retries)
      then (Ok (Continue, Some e), t ++ [EvPost req; EvSleep (backoff attempt)])
      else (Raise e, t ++ [EvPost req])
  end.
Proof.
  unfold loop_body, try_except, mbind, Py_bind. rewrite try_block_verdict.
  destruct (verdict _); [done..|].
  case_bool_decide; [|done].
  unfold time_sleep, mret, Py_ret. by rewrite <- app_assoc.
Qed.

Lemma for_attempts_app req max_retries l1 l2 last_err t :
  for_attempts req max_retries (l1 ++ l2) last_err t =
  match for_attempts req max_retries l1 last_err t with
  | (Ok (None, last_err'), t') => for_attempts req max_retries l2 last_err' t'
  | r => r
  end.
Proof.
  revert last_err t. induction l1 as [|a l1 IH]; intros last_err t; [done|].
  simpl. unfold mbind, Py_bind.
  destruct (loop_body _ _ _ _ _) as [[[[|v] le]|e] t']; [apply IH|done..].
Qed.

(** A run of attempts that all meet a retriable status: the loop runs off
    its end, [last_err] is untouched, every attempt is followed by its
    sleep. *)
Lemma for_attempts_retriable req max_retries attempts last_err t :
  (∀ i, (i < length attempts)%nat →
        verdict (transport (length (posts t) + i) req) = Retriable) →
  for_attempts req max_retries attempts last_err t =
  (Ok (None, last_err), t ++ retry_trace req attempts).
Proof.
  revert t. induction attempts as [|a l IH]; intros t H.
  { simpl. unfold mret, Py_ret. by rewrite app_nil_r. }
  simpl for_attempts. unfold mbind, Py_bind. rewrite loop_body_verdict.
  specialize (H 0%nat) as H0. rewrite Nat.add_0_r in H0.
  rewrite H0 by (simpl; lia).
  rewrite IH.
  - unfold retry_trace. by rewrite bind_cons, app_assoc.
  - intros i Hi. rewrite posts_app, length_app. simpl.
    replace (length (posts t) + 1 + i)%nat with (length (posts t) + S i)%nat by lia.
    apply H. simpl. lia.
Qed.

(** A run of attempts that all raise before the last permitted attempt:
    each exception is swallowed, remembered in [last_err] and followed by
    a sleep. *)
Lemma for_attempts_failing req max_retries attempts last_err t err :
  (∀ a, a ∈ attempts → a < max_retries) →
  (∀ i, (i < length attempts)%nat →
        verdict (transport (length (posts t) + i) req)
        = Failure (err (length (posts t) + i)%nat)) →
  for_attempts req max_retries attempts last_err t =
  (Ok (None, match attempts with
             | [] => last_err
             | _ => Some (err (length (posts t) + length attempts - 1)%nat)
             end),
   t ++ retry_trace req attempts).
Proof.
  revert last_err t. induction attempts as [|a l IH]; intros last_err t Hlt H.
  { simpl. unfold mret, Py_ret. by rewrite app_nil_r. }
  simpl for_attempts. unfold mbind, Py_bind. rewrite loop_body_verdict.
  specialize (H 0%nat) as H0. rewrite Nat.add_0_r in H0.
  rewrite H0 by (simpl; lia).
  rewrite bool_decide_eq_true_2 by (apply Hlt; left).
  assert (Hn : length (posts (t ++ [EvPost req; EvSleep (backoff a)]))
               = S (length (posts t))).
  { rewrite posts_app, length_app. simpl. lia. }
  rewrite IH.
  - unfold retry_trace. rewrite bind_cons, app_assoc. f_equal. f_equal. f_equal.
    rewrite Hn. destruct l as [|b l]; simpl; f_equal; f_equal; lia.
  - intros b Hb. apply Hlt. by right.
  - intros i Hi. rewrite Hn.
    replace (S (length (posts t)) + i)%nat with (length (posts t) + S i)%nat by lia.
    apply H. simpl. lia.
Qed.

(** With a credential in hand the call is the loop followed by line 100. *)
Lemma call_with_credential endpoint messages kw t :
  truthy (py_or (api_key kw) (os_getenv "DEEPSEEK_API_KEY")) = true →
  call_deepseek_chat endpoint messages kw t =
  match for_attempts (request_of endpoint messages kw) (max_retries kw)
          (seqZ 1 (max_retries kw)) None t with
  | (Ok (Some v, _), t') => (Ok v, t')
  | (Ok (None, last_err), t') => (Raise (RuntimeError "Request failed" last_err), t')
  | (Raise e, t') => (Raise e, t')
  end.
Proof.
  intros Hkey. unfold call_deepseek_chat. rewrite Hkey.
  change (negb true) with false. cbv beta iota zeta.
  unfold mbind, Py_bind, range, request_of.
  replace (max_retries kw + 1 - 1) with (max_retries kw) by lia.
  by destruct (for_attempts _ _ _ _ _) as [[[[v|] le]|e] t'].
Qed.

Lemma call_without_credential endpoint messages kw t :
  truthy (py_or (api_key kw) (os_getenv "DEEPSEEK_API_KEY")) = false →
  call_deepseek_chat endpoint messages kw t = (Raise missing_api_key, t).
Proof. intros Hkey. unfold call_deepseek_chat. by rewrite Hkey. Qed.

Lemma verdict_retriable resp :
  status_code resp ∈ [429; 500; 502; 503; 504] →
  verdict (Responds resp) = Retriable.
Proof.
  intros H. unfold verdict, retriable_status. by rewrite bool_decide_eq_true_2.
Qed.

Lemma verdict_http_error resp :
  status_code resp ∉ [429; 500; 502; 503; 504] →
  400 ≤ status_code resp < 600 →
  verdict (Responds resp) = Failure (HTTPError resp).
Proof.
  intros Hn Hr. unfold verdict, retriable_status.
  rewrite bool_decide_eq_false_2 by done. by rewrite bool_decide_eq_true_2.
Qed.

Lemma verdict_decoded resp v :
  status_code resp ∉ [429; 500; 502; 503; 504] →
  ¬ 400 ≤ status_code resp < 600 →
  json_loads (text resp) = Some v →
  verdict (Responds resp) = Success v.
Proof.
  intros Hn Hr Hv. unfold verdict, retriable_status.
  rewrite !bool_decide_eq_false_2 by done. by rewrite Hv.
Qed.

Lemma verdict_non_json resp :
  status_code resp ∉ [429; 500; 502; 503; 504] →
  ¬ 400 ≤ status_code resp < 600 →
  json_loads (text resp) = None →
  verdict (Responds resp) = Failure (non_json resp).
Proof.
  intros Hn Hr Hv. unfold verdict, retriable_status.
  rewrite !bool_decide_eq_false_2 by done. by rewrite Hv.
Qed.

(** Every attempt raises, the last one included: the exception of the last
    attempt leaves the function, after a sleep behind every earlier one. *)
Lemma call_every_attempt_fails endpoint messages kw err :
  truthy (py_or (api_key kw) (os_getenv "DEEPSEEK_API_KEY")) = true →
  1 ≤ max_retries kw →
  (∀ i, Z.of_nat i < max_retries kw →
        verdict (transport i (request_of endpoint messages kw)) = Failure (err i)) →
  call_deepseek_chat endpoint messages kw [] =
  (Raise (err (Z.to_nat (max_retries kw - 1))),
   retry_trace (request_of endpoint messages kw) (seqZ 1 (max_retries kw - 1))
   ++ [EvPost (request_of endpoint messages kw)]).
Proof.
  intros Hkey Hmr Hv. rewrite call_with_credential by done.
  set (req := request_of endpoint messages kw) in *.
  set (mr := max_retries kw) in *.
  replace (seqZ 1 mr) with (seqZ 1 (mr - 1) ++ [mr]); last first.
  { replace mr with ((mr - 1) + 1) at 3 by lia.
    rewrite seqZ_app by lia. f_equal.
    replace (1 + (mr - 1)) with mr by lia. by rewrite seqZ_cons, seqZ_nil by lia. }
  rewrite for_attempts_app.
  rewrite (for_attempts_failing _ _ _ _ _ err); simpl app.
  - simpl for_attempts. unfold mbind, Py_bind. rewrite loop_body_verdict.
    rewrite posts_retry_trace, length_replicate, length_seqZ.
    rewrite Hv by lia. by rewrite bool_decide_eq_false_2 by lia.
  - intros a Ha. apply elem_of_seqZ in Ha. lia.
  - intros i Hi. rewrite length_seqZ in Hi. simpl. apply Hv. lia.
Qed.

(** The loop only ever appends to the trace, and every request it appends
    is the one it was given. *)
Lemma for_attempts_posts req max_retries attempts last_err t :
  ∃ k, (for_attempts req max_retries attempts last_err t).2 = t ++ k
       ∧ Forall (λ r, r = req) (posts k).
Proof.
  revert last_err t. induction attempts as [|a l IH]; intros last_err t.
  { exists []. simpl. by rewrite app_nil_r. }
  simpl for_attempts. unfold mbind, Py_bind. rewrite loop_body_verdict.
  destruct (verdict _) as [|v|e].
  - destruct (IH last_err (t ++ [EvPost req; EvSleep (backoff a)])) as (k & -> & Hk).
    eexists. rewrite <- app_assoc. split; [done|].
    rewrite posts_app. apply Forall_app. split; [|done]. by repeat constructor.
  - exists [EvPost req]. split; [done|]. by repeat constructor.
  - case_bool_decide.
    + destruct (IH (Some e) (t ++ [EvPost req; EvSleep (backoff a)])) as (k & -> & Hk).
      eexists. rewrite <- app_assoc. split; [done|].
      rewrite posts_app. apply Forall_app. split; [|done]. by repeat constructor.
    + exists [EvPost req]. split; [done|]. by repeat constructor.
Qed.

(** Every attempt meets a retriable status: the loop runs off its end with
    no exception remembered. *)
Lemma call_every_attempt_retriable endpoint messages kw :
  truthy (py_or (api_key kw) (os_getenv "DEEPSEEK_API_KEY")) = true →
  (∀ i, Z.of_nat i < max_retries kw →
        ∃ resp, transport i (request_of endpoint messages kw) = Responds resp
                ∧ status_code resp ∈ [429; 500; 502; 503; 504]) →
  call_deepseek_chat endpoint messages kw [] =
  (Raise (RuntimeError "Request failed" None),
   retry_trace (request_of endpoint messages kw) (seqZ 1 (max_retries kw))).
Proof.
  intros Hkey H. rewrite call_with_credential by done.
  rewrite for_attempts_retriable; [done|].
  intros i Hi. rewrite length_seqZ in Hi. simpl.
  destruct (H i) as (resp & -> & Hs); [lia|]. by apply verdict_retriable.
Qed.

Lemma call_trace endpoint messages kw t :
  truthy (py_or (api_key kw) (os_getenv "DEEPSEEK_API_KEY")) = true →
  (call_deepseek_chat endpoint messages kw t).2 =
  (for_attempts (request_of endpoint messages kw) (max_retries kw)
     (seqZ 1 (max_retries kw)) None t).2.
Proof.
  intros Hkey. rewrite call_with_credential by done.
  by destruct (for_attempts _ _ _ _ _) as [[[[v|] le]|e] t'].
Qed.

Lemma build_payload_dom messages kw :
  dom (build_payload messages kw)
  =@{gset string} {["model"; "messages"; "temperature"; "max_tokens"]}.
Proof.
  unfold build_payload. rewrite !dom_insert_L, dom_empty_L. set_solver.
Qed.

Lemma posted_request endpoint messages kw req :
  req ∈ posts (call_deepseek_chat endpoint messages kw []).2 →
  req = request_of endpoint messages kw
  ∧ truthy (py_or (api_key kw) (os_getenv "DEEPSEEK_API_KEY")) = true.
Proof.
  intros Hin.
  destruct (truthy (py_or (api_key kw) (os_getenv "DEEPSEEK_API_KEY"))) eqn:Hkey.
  - split; [|done]. rewrite call_trace in Hin by done.
    destruct (for_attempts_posts (request_of endpoint messages kw)
                (max_retries kw) (seqZ 1 (max_retries kw)) None [])
      as (k & Hk & Hall).
    rewrite Hk in Hin. simpl in Hin.
    by apply (proj1 (Forall_forall _ _) Hall).
  - rewrite call_without_credential in Hin by done. by apply elem_of_nil in Hin.
Qed.

(** With a credential and at least one permitted attempt, the run opens
    with a request to the transport. *)
Lemma call_first_post endpoint messages kw :
  truthy (py_or (api_key kw) (os_getenv "DEEPSEEK_API_KEY")) = true →
  1 ≤ max_retries kw →
  ∃ rest, (call_deepseek_chat endpoint messages kw []).2
          = EvPost (request_of endpoint messages kw) :: rest.
Proof.
  intros Hkey Hmr. rewrite call_trace by done.
  set (req := request_of endpoint messages kw).
  rewrite seqZ_cons by lia. simpl for_attempts. unfold mbind, Py_bind.
  rewrite loop_body_verdict.
  destruct (verdict _) as [|v|e]; [|by eexists|case_bool_decide; [|by eexists]].
  - destruct (for_attempts_posts req (max_retries kw)
                (seqZ (Z.succ 1) (Z.pred (max_retries kw))) None
                ([] ++ [EvPost req; EvSleep (backoff 1)])) as (k & -> & _).
    by eexists.
  - destruct (for_attempts_posts req (max_retries kw)
                (seqZ (Z.succ 1) (Z.pred (max_retries kw))) (Some e)
                ([] ++ [EvPost req; EvSleep (backoff 1)])) as (k & -> & _).
    by eexists.
Qed.

(** ** Credential resolution *)

(** C5: when no [api_key] argument is passed and DEEPSEEK_API_KEY is not in
    the environment, the call raises the missing-credential [ValueError]
    and the trace stays empty: the transport was never invoked (and the
    client never slept). *)
Theorem missing_credential_fails_before_network endpoint messages kw :
  api_key kw = None →
  os_getenv "DEEPSEEK_API_KEY" = None →
  call_deepseek_chat endpoint messages kw [] = (Raise missing_api_key, [])
  ∧ posts (call_deepseek_chat endpoint messages kw []).2 = [].
Proof.
  intros Hk He.
  assert (call_deepseek_chat endpoint messages kw [] = (Raise missing_api_key, []))
    as ->; [|done].
  apply call_without_credential. by rewrite Hk, He.
Qed.

(** C8: an [api_key] argument that is the empty string behaves exactly as
    an absent one: the key is taken from the environment and every run
    equals the run without the argument.  When the environment variable is
    unset or empty too, the call raises the missing-credential error with
    an empty trace.  When it holds a non-empty key, the call does not raise
    that error but proceeds as if that key had been passed: every request
    carries it as the bearer token, and with at least one permitted attempt
    the run opens with such a request. *)
Theorem empty_api_key_falls_back_to_environment endpoint messages kw :
  api_key kw = Some "" →
  py_or (api_key kw) (os_getenv "DEEPSEEK_API_KEY") = os_getenv "DEEPSEEK_API_KEY"
  ∧ (∀ t, call_deepseek_chat endpoint messages kw t
          = call_deepseek_chat endpoint messages (with_api_key None kw) t)
  ∧ (os_getenv "DEEPSEEK_API_KEY" = None ∨ os_getenv "DEEPSEEK_API_KEY" = Some "" →
     call_deepseek_chat endpoint messages kw [] = (Raise missing_api_key, []))
  ∧ (∀ key,
       key ≠ "" →
       os_getenv "DEEPSEEK_API_KEY" = Some key →
       call_deepseek_chat endpoint messages kw [] ≠ (Raise missing_api_key, [])
       ∧ (∀ t, call_deepseek_chat endpoint messages kw t
               = call_deepseek_chat endpoint messages (with_api_key (Some key) kw) t)
       ∧ (∀ req, req ∈ posts (call_deepseek_chat endpoint messages kw []).2 →
                 headers req !! "Authorization" = Some ("Bearer " +:+ key))
       ∧ (1 ≤ max_retries kw →
          ∃ req rest,
            (call_deepseek_chat endpoint messages kw []).2 = EvPost req :: rest
            ∧ headers req !! "Authorization" = Some ("Bearer " +:+ key))).
Proof.
  intros Hk. split; [by rewrite Hk|]. split; [|split].
  - intros t. unfold call_deepseek_chat. rewrite Hk. by destruct kw.
  - intros He. apply call_without_credential. rewrite Hk.
    by destruct He as [-> | ->].
  - intros key Hkey He.
    assert (Hor : py_or (api_key kw) (os_getenv "DEEPSEEK_API_KEY") = Some key)
      by (by rewrite Hk, He).
    assert (Htruthy : truthy (py_or (api_key kw) (os_getenv "DEEPSEEK_API_KEY")) = true)
      by (rewrite Hor; by destruct key).
    assert (Hauth : headers (request_of endpoint messages kw) !! "Authorization"
                    = Some ("Bearer " +:+ key)).
    { unfold request_of, build_headers. simpl. by rewrite lookup_insert_eq, Hor. }
    split; [|split; [|split]].
    + destruct (decide (1 ≤ max_retries kw)) as [Hmr|Hmr].
      * destruct (call_first_post endpoint messages kw Htruthy Hmr) as [rest Hrest].
        intros Hcall. by rewrite Hcall in Hrest.
      * rewrite call_with_credential by done. by rewrite seqZ_nil by lia.
    + intros t. unfold call_deepseek_chat. simpl. rewrite Hk, He.
      destruct key as [|c key]; [done|]. by destruct kw.
    + intros req Hin. by apply posted_request in Hin as [-> _].
    + intros Hmr.
      destruct (call_first_post endpoint messages kw Htruthy Hmr) as [rest Hrest].
      by exists (request_of endpoint messages kw), rest.
Qed.

(** ** The retry loop *)

(** C4: if the first [N - 1] answers carry status 429 and answer [N] is a
    200 whose body decodes to [v], with [1 ≤ N ≤ max_retries], the call
    returns [v], the transport was invoked [N] times, and the sleeps are
    [min(2^(a-1), 8)] for [a = 1 .. N-1], that is 1, 2, 4, 8, 8, ... *)
Theorem rate_limited_then_success endpoint messages kw N body v :
  truthy (py_or (api_key kw) (os_getenv "DEEPSEEK_API_KEY")) = true →
  1 ≤ N ≤ max_retries kw →
  (∀ i, Z.of_nat i < N - 1 →
        ∃ b, transport i (request_of endpoint messages kw)
             = Responds (mkResponse 429 b)) →
  transport (Z.to_nat (N - 1)) (request_of endpoint messages kw)
  = Responds (mkResponse 200 body) →
  json_loads body = Some v →
  ∃ t, call_deepseek_chat endpoint messages kw [] = (Ok v, t)
       ∧ length (posts t) = Z.to_nat N
       ∧ sleeps t = (λ a, Z.min (2 ^ (a - 1)) 8) <$> seqZ 1 (N - 1)
       ∧ length (sleeps t) = Z.to_nat (N - 1)
       ∧ (∀ i, Z.of_nat i < N - 1 →
               sleeps t !! i = Some (Z.min (2 ^ Z.of_nat i) 8)).
Proof.
  intros Hkey HN H429 H200 Hv.
  set (req := request_of endpoint messages kw) in *.
  exists (retry_trace req (seqZ 1 (N - 1)) ++ [EvPost req]).
  split; [|split; [|split; [|split]]].
  - rewrite call_with_credential by done. fold req.
    replace (max_retries kw) with ((N - 1) + (max_retries kw - (N - 1))) at 2 by lia.
    rewrite seqZ_app by lia. rewrite for_attempts_app.
    rewrite for_attempts_retriable.
    + replace (1 + (N - 1)) with N by lia. rewrite seqZ_cons by lia.
      simpl app. simpl for_attempts. unfold mbind, Py_bind.
      rewrite loop_body_verdict.
      rewrite posts_retry_trace, length_replicate, length_seqZ, H200.
      by rewrite (verdict_decoded _ v) by (simpl; first [done | compute_done]).
    + intros i Hi. rewrite length_seqZ in Hi. simpl.
      destruct (H429 i) as [b ->]; [lia|].
      apply verdict_retriable. simpl. compute_done.
  - rewrite posts_app, length_app, posts_retry_trace, length_replicate, length_seqZ.
    simpl. lia.
  - rewrite sleeps_app, sleeps_retry_trace. simpl. by rewrite app_nil_r.
  - rewrite sleeps_app, sleeps_retry_trace, length_app, length_fmap, length_seqZ.
    simpl. lia.
  - intros i Hi. rewrite sleeps_app, sleeps_retry_trace. simpl. rewrite app_nil_r.
    rewrite list_lookup_fmap, lookup_seqZ_lt by lia. simpl. unfold backoff.
    do 3 f_equal. lia.
Qed.

(** C3: whatever the attempt number, and be it the last one, an answer with
    status 429, 500, 502, 503 or 504 makes the loop body sleep
    [min(2^(attempt-1), 8)] and continue, leaving [last_err] alone.  When
    every attempt ends that way the loop runs off its end and the call
    raises the generic [RuntimeError] "Request failed", with no cause since
    no exception was seen; when earlier attempts raised transport errors and
    the remaining ones met retriable statuses, its cause is the last of
    those transport errors. *)
Theorem retriable_status_backs_off_and_exhausts endpoint messages kw :
  (∀ req attempt last_err t resp,
     1 ≤ attempt →
     transport (length (posts t)) req = Responds resp →
     status_code resp ∈ [429; 500; 502; 503; 504] →
     loop_body req (max_retries kw) attempt last_err t
     = (Ok (Continue, last_err),
        t ++ [EvPost req; EvSleep (Z.min (2 ^ (attempt - 1)) 8)]))
  ∧ (truthy (py_or (api_key kw) (os_getenv "DEEPSEEK_API_KEY")) = true →
     (∀ i, Z.of_nat i < max_retries kw →
           ∃ resp, transport i (request_of endpoint messages kw) = Responds resp
                   ∧ status_code resp ∈ [429; 500; 502; 503; 504]) →
     call_deepseek_chat endpoint messages kw [] =
     (Raise (RuntimeError "Request failed" None),
      retry_trace (request_of endpoint messages kw) (seqZ 1 (max_retries kw))))
  ∧ (∀ k err,
     truthy (py_or (api_key kw) (os_getenv "DEEPSEEK_API_KEY")) = true →
     1 ≤ k < max_retries kw →
     (∀ i, Z.of_nat i < k →
           transport i (request_of endpoint messages kw) = Fails (err i)) →
     (∀ i, k ≤ Z.of_nat i < max_retries kw →
           ∃ resp, transport i (request_of endpoint messages kw) = Responds resp
                   ∧ status_code resp ∈ [429; 500; 502; 503; 504]) →
     call_deepseek_chat endpoint messages kw [] =
     (Raise (RuntimeError "Request failed" (Some (err (Z.to_nat (k - 1))))),
      retry_trace (request_of endpoint messages kw) (seqZ 1 (max_retries kw)))).
Proof.
  split; [|split].
  - intros req attempt last_err t resp _ Hresp Hs.
    rewrite loop_body_verdict, Hresp. by rewrite verdict_retriable.
  - apply call_every_attempt_retriable.
  - intros k err Hkey Hk Hfail Hretry.
    set (req := request_of endpoint messages kw) in *.
    set (mr := max_retries kw) in *.
    rewrite call_with_credential by done. fold req mr.
    replace mr with (k + (mr - k)) at 2 3 by lia.
    rewrite seqZ_app by lia. rewrite for_attempts_app, retry_trace_app.
    rewrite (for_attempts_failing _ _ _ _ _ err); simpl app.
    + assert (match seqZ 1 k with
              | [] => None
              | _ :: _ => Some (err (length (posts []) + length (seqZ 1 k) - 1)%nat)
              end = Some (err (Z.to_nat (k - 1)))) as ->.
      { rewrite length_seqZ. rewrite seqZ_cons by lia. simpl. do 2 f_equal. lia. }
      rewrite for_attempts_retriable; [done|].
      intros i Hi. rewrite length_seqZ in Hi.
      rewrite posts_retry_trace, length_replicate, length_seqZ.
      destruct (Hretry (Z.to_nat k + i)%nat) as (resp & -> & Hs); [lia|].
      by apply verdict_retriable.
    + intros a Ha. apply elem_of_seqZ in Ha. lia.
    + intros i Hi. rewrite length_seqZ in Hi. simpl. rewrite Hfail by lia. done.
Qed.

(** C9: when each of the [max_retries ≥ 1] attempts meets a retriable
    status, the trace holds [max_retries] transport invocations and
    [max_retries] sleeps, and it ends with the last invocation followed by a
    sleep of [min(2^(max_retries-1), 8)]; only then is the generic
    [RuntimeError] raised. *)
Theorem exhausted_retries_sleep_after_final_attempt endpoint messages kw :
  truthy (py_or (api_key kw) (os_getenv "DEEPSEEK_API_KEY")) = true →
  1 ≤ max_retries kw →
  (∀ i, Z.of_nat i < max_retries kw →
        ∃ resp, transport i (request_of endpoint messages kw) = Responds resp
                ∧ status_code resp ∈ [429; 500; 502; 503; 504]) →
  ∃ t t0,
    call_deepseek_chat endpoint messages kw [] =
    (Raise (RuntimeError "Request failed" None), t)
    ∧ length (posts t) = Z.to_nat (max_retries kw)
    ∧ length (sleeps t) = Z.to_nat (max_retries kw)
    ∧ t = t0 ++ [EvPost (request_of endpoint messages kw);
                 EvSleep (Z.min (2 ^ (max_retries kw - 1)) 8)]
    ∧ length (posts t0) = Z.to_nat (max_retries kw - 1).
Proof.
  intros Hkey Hmr H.
  set (req := request_of endpoint messages kw) in *.
  set (mr := max_retries kw) in *.
  exists (retry_trace req (seqZ 1 mr)), (retry_trace req (seqZ 1 (mr - 1))).
  split; [by apply call_every_attempt_retriable|].
  split; [by rewrite posts_retry_trace, length_replicate, length_seqZ|].
  split; [by rewrite sleeps_retry_trace, length_fmap, length_seqZ|].
  split; [|by rewrite posts_retry_trace, length_replicate, length_seqZ].
  replace mr with ((mr - 1) + 1) at 1 by lia.
  rewrite seqZ_app, retry_trace_app by lia. f_equal.
  replace (1 + (mr - 1)) with mr by lia. by rewrite seqZ_cons, seqZ_nil by lia.
Qed.

(** C6: with [max_retries = 3] and a transport that raises a connection
    error on every invocation, the transport is invoked three times, the
    client sleeps 1 after the first and 2 after the second invocation and
    not after the third, and the exception that leaves the call is the
    connection error of the third invocation. *)
Theorem connection_errors_exhaust_three_attempts endpoint messages kw msg :
  truthy (py_or (api_key kw) (os_getenv "DEEPSEEK_API_KEY")) = true →
  max_retries kw = 3 →
  (∀ i, transport i (request_of endpoint messages kw)
        = Fails (ConnectionError (msg i))) →
  call_deepseek_chat endpoint messages kw [] =
  (Raise (ConnectionError (msg 2%nat)),
   [EvPost (request_of endpoint messages kw); EvSleep 1;
    EvPost (request_of endpoint messages kw); EvSleep 2;
    EvPost (request_of endpoint messages kw)]).
Proof.
  intros Hkey Hmr H.
  rewrite (call_every_attempt_fails _ _ _ (λ i, ConnectionError (msg i)));
    [by rewrite Hmr|done|lia|].
  intros i _. by rewrite H.
Qed.

(** C10: with [max_retries = 0] and a credential at hand, the loop body
    never runs: the trace is empty (no transport invocation, no sleep) and
    the call raises [RuntimeError] "Request failed" with no cause. *)
Theorem zero_retries_fails_without_network endpoint messages kw :
  max_retries kw = 0 →
  truthy (py_or (api_key kw) (os_getenv "DEEPSEEK_API_KEY")) = true →
  call_deepseek_chat endpoint messages kw [] =
  (Raise (RuntimeError "Request failed" None), [])
  ∧ posts (call_deepseek_chat endpoint messages kw []).2 = [].
Proof.
  intros Hmr Hkey. rewrite call_with_credential by done. by rewrite Hmr.
Qed.

(** ** The request payload *)

(** C7: every request the call hands to the transport carries a body with
    exactly the keys model, messages, temperature and max_tokens, holding
    the [model], [temperature] and [max_tokens] arguments and, under
    messages, the very list that was passed in. *)
Theorem outbound_payload_is_the_documented_one endpoint messages kw :
  ∀ req, req ∈ posts (call_deepseek_chat endpoint messages kw []).2 →
    dom (json req) =@{gset string} {["model"; "messages"; "temperature"; "max_tokens"]}
    ∧ json req !! "model" = Some (PyStr (model kw))
    ∧ json req !! "messages" = Some (PyMessages messages)
    ∧ json req !! "temperature" = Some (PyFloat (temperature kw))
    ∧ json req !! "max_tokens" = Some (PyInt (max_tokens kw)).
Proof.
  intros req Hin.
  assert (req = request_of endpoint messages kw) as ->.
  { destruct (truthy (py_or (api_key kw) (os_getenv "DEEPSEEK_API_KEY"))) eqn:Hkey.
    - rewrite call_trace in Hin by done.
      destruct (for_attempts_posts (request_of endpoint messages kw)
                  (max_retries kw) (seqZ 1 (max_retries kw)) None [])
        as (k & Hk & Hall).
      rewrite Hk in Hin. simpl in Hin.
      by apply (proj1 (Forall_forall _ _) Hall).
    - rewrite call_without_credential in Hin by done. by apply elem_of_nil in Hin. }
  split; [apply build_payload_dom|].
  by unfold request_of, build_payload; simpl; simplify_map_eq.
Qed.

(** ** Terminal errors inside the retry loop *)

(** C1, on the code: a transport that answers 401 every time is invoked
    [max_retries] times, with a backoff sleep after every invocation but
    the last; the [HTTPError] carrying status and body leaves the call only
    then.  It leaves after one invocation only when [max_retries = 1]. *)
Theorem unauthorized_is_retried_until_exhausted endpoint messages kw body :
  truthy (py_or (api_key kw) (os_getenv "DEEPSEEK_API_KEY")) = true →
  1 ≤ max_retries kw →
  (∀ i, Z.of_nat i < max_retries kw →
        transport i (request_of endpoint messages kw)
        = Responds (mkResponse 401 body)) →
  call_deepseek_chat endpoint messages kw [] =
  (Raise (HTTPError (mkResponse 401 body)),
   retry_trace (request_of endpoint messages kw) (seqZ 1 (max_retries kw - 1))
   ++ [EvPost (request_of endpoint messages kw)])
  ∧ length (posts (call_deepseek_chat endpoint messages kw []).2)
    = Z.to_nat (max_retries kw).
Proof.
  intros Hkey Hmr H.
  rewrite (call_every_attempt_fails _ _ _ (λ _, HTTPError (mkResponse 401 body)))
    by first [done | intros i Hi; rewrite H by done;
                     apply verdict_http_error; simpl; first [lia | compute_done]].
  split; [done|]. simpl.
  rewrite posts_app, length_app, posts_retry_trace, length_replicate, length_seqZ.
  simpl. lia.
Qed.

(** C2, on the code: a transport that answers 200 with a body the decoder
    rejects is invoked [max_retries] times, with a backoff sleep after every
    invocation but the last; the [ValueError] that finally leaves the call
    has the first 200 characters of the body as the tail of its message. *)
Theorem decode_failure_is_retried_until_exhausted endpoint messages kw body :
  truthy (py_or (api_key kw) (os_getenv "DEEPSEEK_API_KEY")) = true →
  1 ≤ max_retries kw →
  (∀ i, Z.of_nat i < max_retries kw →
        transport i (request_of endpoint messages kw)
        = Responds (mkResponse 200 body)) →
  json_loads body = None →
  call_deepseek_chat endpoint messages kw [] =
  (Raise (ValueError ("Endpoint returned non-JSON: " +:+ substring 0 200 body)
                     (Some (JSONDecodeError body))),
   retry_trace (request_of endpoint messages kw) (seqZ 1 (max_retries kw - 1))
   ++ [EvPost (request_of endpoint messages kw)])
  ∧ length (posts (call_deepseek_chat endpoint messages kw []).2)
    = Z.to_nat (max_retries kw).
Proof.
  intros Hkey Hmr H Hbody.
  rewrite (call_every_attempt_fails _ _ _ (λ _, non_json (mkResponse 200 body)))
    by first [done | intros i Hi; rewrite H by done;
                     apply verdict_non_json; simpl; first [done | lia | compute_done]].
  split; [done|]. simpl.
  rewrite posts_app, length_app, posts_retry_trace, length_replicate, length_seqZ.
  simpl. lia.
Qed.

(** ** The shape of every run *)

Lemma retry_trace_cons req a l :
  retry_trace req (a :: l) = EvPost req :: EvSleep (backoff a) :: retry_trace req l.
Proof. reflexivity. Qed.

Lemma verdict_success_inv r v :
  verdict r = Success v →
  ∃ resp, r = Responds resp
          ∧ (status_code resp ∉ [429; 500; 502; 503; 504])
          ∧ ¬ (400 ≤ status_code resp < 600)
          ∧ json_loads (text resp) = Some v.
Proof.
  destruct r as [resp|e]; [|done]. unfold verdict, retriable_status.
  repeat case_bool_decide; try done.
  destruct (json_loads (text resp)) as [w|] eqn:Hw; [|done].
  intros [= ->]. by exists resp.
Qed.

Lemma verdict_retriable_inv r :
  verdict r = Retriable →
  ∃ resp, r = Responds resp ∧ status_code resp ∈ [429; 500; 502; 503; 504].
Proof.
  destruct r as [resp|e]; [|done]. unfold verdict, retriable_status.
  repeat case_bool_decide; try done; [by exists resp|].
  by destruct (json_loads (text resp)).
Qed.

(** The three ways the loop can end, whatever the transport does: it runs
    off its end after a sleep behind every attempt; it returns from attempt
    [k + 1] on a decoded answer; or an exception leaves from attempt
    [k + 1], which then is not below [max_retries]. *)
Lemma for_attempts_cases req max_retries attempts last_err t :
  (∃ last_err',
      for_attempts req max_retries attempts last_err t
      = (Ok (None, last_err'), t ++ retry_trace req attempts)
      ∧ ∀ i a, attempts !! i = Some a →
               verdict (transport (length (posts t) + i) req) = Retriable
               ∨ (a < max_retries
                  ∧ ∃ e, verdict (transport (length (posts t) + i) req) = Failure e))
  ∨ (∃ k a v last_err',
      attempts !! k = Some a
      ∧ for_attempts req max_retries attempts last_err t
        = (Ok (Some v, last_err'),
           t ++ retry_trace req (take k attempts) ++ [EvPost req])
      ∧ verdict (transport (length (posts t) + k) req) = Success v)
  ∨ (∃ k a e,
      attempts !! k = Some a
      ∧ ¬ a < max_retries
      ∧ for_attempts req max_retries attempts last_err t
        = (Raise e, t ++ retry_trace req (take k attempts) ++ [EvPost req])
      ∧ verdict (transport (length (posts t) + k) req) = Failure e).
Proof.
  revert last_err t. induction attempts as [|a l IH]; intros last_err t.
  { left. exists last_err. split; [|by intros i a Hi].
    simpl. unfold mret, Py_ret. by rewrite app_nil_r. }
  assert (Hn : length (posts (t ++ [EvPost req; EvSleep (backoff a)]))
               = S (length (posts t))).
  { rewrite posts_app, length_app. simpl. lia. }
  assert (Hstep : ∀ le,
    (∀ i b, (a :: l) !! i = Some b →
            i = 0%nat →
            verdict (transport (length (posts t) + i) req) = Retriable
            ∨ (b < max_retries
               ∧ ∃ e, verdict (transport (length (posts t) + i) req) = Failure e)) →
    for_attempts req max_retries (a :: l) last_err t
    = for_attempts req max_retries l le (t ++ [EvPost req; EvSleep (backoff a)]) →
    (∃ last_err',
        for_attempts req max_retries (a :: l) last_err t
        = (Ok (None, last_err'), t ++ retry_trace req (a :: l))
        ∧ ∀ i b, (a :: l) !! i = Some b →
                 verdict (transport (length (posts t) + i) req) = Retriable
                 ∨ (b < max_retries
                    ∧ ∃ e, verdict (transport (length (posts t) + i) req) = Failure e))
    ∨ (∃ k b v last_err',
        (a :: l) !! k = Some b
        ∧ for_attempts req max_retries (a :: l) last_err t
          = (Ok (Some v, last_err'),
             t ++ retry_trace req (take k (a :: l)) ++ [EvPost req])
        ∧ verdict (transport (length (posts t) + k) req) = Success v)
    ∨ (∃ k b e,
        (a :: l) !! k = Some b
        ∧ ¬ b < max_retries
        ∧ for_attempts req max_retries (a :: l) last_err t
          = (Raise e, t ++ retry_trace req (take k (a :: l)) ++ [EvPost req])
        ∧ verdict (transport (length (posts t) + k) req) = Failure e)).
  { intros le Hhead Heq. rewrite Heq.
    destruct (IH le (t ++ [EvPost req; EvSleep (backoff a)]))
      as [(le' & Hr & Hall) | [(k & b & v & le' & Hk & Hr & Hv)
                              | (k & b & e & Hk & Hb & Hr & Hv)]];
      rewrite Hn in *.
    - left. exists le'. split.
      + rewrite Hr, retry_trace_cons. by rewrite <- app_assoc.
      + intros [|i] b Hb; [by apply Hhead|].
        replace (length (posts t) + S i)%nat with (S (length (posts t)) + i)%nat by lia.
        by apply Hall.
    - right. left. exists (S k), b, v, le'. split; [done|]. split.
      + rewrite Hr. simpl take. rewrite retry_trace_cons. by rewrite <- app_assoc.
      + by replace (length (posts t) + S k)%nat
          with (S (length (posts t)) + k)%nat by lia.
    - right. right. exists (S k), b, e. split; [done|]. split; [done|]. split.
      + rewrite Hr. simpl take. rewrite retry_trace_cons. by rewrite <- app_assoc.
      + by replace (length (posts t) + S k)%nat
          with (S (length (posts t)) + k)%nat by lia. }
  pose proof (loop_body_verdict req max_retries a last_err t) as Hbody.
  destruct (verdict (transport (length (posts t)) req)) as [|v|e] eqn:Hv.
  - apply (Hstep last_err).
    + intros i b Hb ->. left. by rewrite Nat.add_0_r.
    + simpl for_attempts. unfold mbind, Py_bind. by rewrite Hbody.
  - right. left. exists 0%nat, a, v, last_err. split; [done|]. split.
    + simpl for_attempts. unfold mbind, Py_bind. by rewrite Hbody.
    + by rewrite Nat.add_0_r.
  - destruct (decide (a < max_retries)) as [Ha|Ha].
    + rewrite bool_decide_eq_true_2 in Hbody by done. apply (Hstep (Some e)).
      * intros i b Hb ->. injection Hb as <-.
        right. split; [done|]. exists e. by rewrite Nat.add_0_r.
      * simpl for_attempts. unfold mbind, Py_bind. by rewrite Hbody.
    + rewrite bool_decide_eq_false_2 in Hbody by done.
      right. right. exists 0%nat, a, e. split; [done|]. split; [done|]. split.
      * simpl for_attempts. unfold mbind, Py_bind. by rewrite Hbody.
      * by rewrite Nat.add_0_r.
Qed.

Lemma take_seqZ (k : nat) m n :
  (k ≤ Z.to_nat n)%nat → take k (seqZ m n) = seqZ m (Z.of_nat k).
Proof.
  intros Hk. unfold seqZ. rewrite <- fmap_take, take_seq, Nat2Z.id.
  by rewrite Nat.min_l.
Qed.

Lemma retry_trace_snoc req n :
  1 ≤ n →
  retry_trace req (seqZ 1 n)
  = retry_trace req (seqZ 1 (n - 1)) ++ [EvPost req; EvSleep (backoff n)].
Proof.
  intros Hn. replace n with ((n - 1) + 1) at 1 by lia.
  rewrite seqZ_app, retry_trace_app by lia. f_equal.
  replace (1 + (n - 1)) with n by lia. by rewrite seqZ_cons, seqZ_nil by lia.
Qed.

(** The three ways a call with a credential can end. *)
Lemma call_cases endpoint messages kw :
  truthy (py_or (api_key kw) (os_getenv "DEEPSEEK_API_KEY")) = true →
  (∃ cause,
      call_deepseek_chat endpoint messages kw []
      = (Raise (RuntimeError "Request failed" cause),
         retry_trace (request_of endpoint messages kw) (seqZ 1 (max_retries kw)))
      ∧ (1 ≤ max_retries kw →
         verdict (transport (Z.to_nat (max_retries kw - 1))
                    (request_of endpoint messages kw)) = Retriable))
  ∨ (∃ (k : nat) v,
      Z.of_nat k < max_retries kw
      ∧ call_deepseek_chat endpoint messages kw []
        = (Ok v, retry_trace (request_of endpoint messages kw) (seqZ 1 (Z.of_nat k))
                 ++ [EvPost (request_of endpoint messages kw)])
      ∧ verdict (transport k (request_of endpoint messages kw)) = Success v)
  ∨ (∃ (k : nat) e,
      Z.of_nat k = max_retries kw - 1
      ∧ call_deepseek_chat endpoint messages kw []
        = (Raise e, retry_trace (request_of endpoint messages kw) (seqZ 1 (Z.of_nat k))
                    ++ [EvPost (request_of endpoint messages kw)])
      ∧ verdict (transport k (request_of endpoint messages kw)) = Failure e).
Proof.
  intros Hkey. rewrite call_with_credential by done.
  set (req := request_of endpoint messages kw).
  set (mr := max_retries kw).
  destruct (for_attempts_cases req mr (seqZ 1 mr) None [])
    as [(le' & -> & Hall) | [(k & a & v & le' & Hk & -> & Hv)
                            | (k & a & e & Hk & Ha & -> & Hv)]].
  - left. exists le'. split; [done|]. intros Hmr.
    destruct (Hall (Z.to_nat (mr - 1)) mr) as [Hr | [Hlt _]]; [|done|lia].
    rewrite lookup_seqZ. lia.
  - apply lookup_seqZ in Hk as [-> Hk].
    right. left. exists k, v. split; [done|]. split; [|done].
    by rewrite take_seqZ by lia.
  - apply lookup_seqZ in Hk as [-> Hk].
    right. right. exists k, e. split; [lia|]. split; [|done].
    by rewrite take_seqZ by lia.
Qed.

(** Every trace is a run of attempt-and-sleep pairs, possibly closed by one
    more attempt, credential or not. *)
Lemma call_trace_shape endpoint messages kw :
  ∃ k : nat,
    (k ≤ Z.to_nat (max_retries kw))%nat
    ∧ ((call_deepseek_chat endpoint messages kw []).2
       = retry_trace (request_of endpoint messages kw) (seqZ 1 (Z.of_nat k))
       ∨ ((k < Z.to_nat (max_retries kw))%nat
          ∧ (call_deepseek_chat endpoint messages kw []).2
            = retry_trace (request_of endpoint messages kw) (seqZ 1 (Z.of_nat k))
              ++ [EvPost (request_of endpoint messages kw)])).
Proof.
  destruct (truthy (py_or (api_key kw) (os_getenv "DEEPSEEK_API_KEY"))) eqn:Hkey.
  - destruct (call_cases endpoint messages kw Hkey)
      as [(cause & -> & _) | [(k & v & Hk & -> & _) | (k & e & Hk & -> & _)]].
    + exists (Z.to_nat (max_retries kw)). split; [done|]. left. simpl.
      destruct (decide (0 ≤ max_retries kw)).
      * by rewrite Z2Nat.id.
      * by rewrite Z2Nat.nonpos, !seqZ_nil by lia.
    + exists k. split; [lia|]. right. split; [lia|done].
    + exists k. split; [lia|]. right. split; [lia|done].
  - rewrite call_without_credential by done. exists 0%nat. split; [lia|]. by left.
Qed.

Lemma backoff_bounds a : 1 ≤ a → 1 ≤ backoff a ≤ 8.
Proof.
  intros Ha. unfold backoff.
  assert (0 < 2 ^ (a - 1)) by (apply Z.pow_pos_nonneg; lia). lia.
Qed.

(** ** What no run ever does *)

(** In a run of attempt-and-sleep pairs, closed or not by one more attempt,
    every sleep stands right behind a request and every request but a
    closing one stands right before a sleep. *)
Lemma retry_trace_alternates req attempts tail :
  tail = [] ∨ tail = [EvPost req] →
  (∀ i secs, (retry_trace req attempts ++ tail) !! i = Some (EvSleep secs) →
             ∃ j, i = S j ∧ (retry_trace req attempts ++ tail) !! j = Some (EvPost req))
  ∧ (∀ i r, (retry_trace req attempts ++ tail) !! i = Some (EvPost r) →
            (S i < length (retry_trace req attempts ++ tail))%nat →
            ∃ secs, (retry_trace req attempts ++ tail) !! S i = Some (EvSleep secs)).
Proof.
  intros Htail. induction attempts as [|a l [IHs IHp]].
  { destruct Htail as [-> | ->]; split.
    - by intros i secs [=].
    - by intros i r [=].
    - by intros [|[|i]] secs [=].
    - intros [|i] r Hi Hlen; simpl in Hlen; lia. }
  rewrite retry_trace_cons. split.
  - intros [|[|i]] secs Hi; simpl in Hi.
    + done.
    + by exists 0%nat.
    + destruct (IHs i secs Hi) as (j & -> & Hj). by exists (S (S j)).
  - intros [|[|i]] r Hi Hlen; simpl in Hi, Hlen.
    + by eexists.
    + done.
    + destruct (IHp i r Hi) as [secs Hs]; [lia|]. by exists secs.
Qed.

(** X1: Whatever the transport answers, the transport is invoked at most
    [max_retries] times, and not at all when that is zero or negative or
    when neither the argument nor the environment holds a credential.  A
    sleep only ever stands right behind an invocation, and every invocation
    that is not the last event of the run is followed at once by a sleep; so
    the sleeps never outnumber the invocations and at most one invocation,
    the last, goes without one. *)
Theorem transport_invocations_are_bounded endpoint messages kw :
  let T := (call_deepseek_chat endpoint messages kw []).2 in
  (length (posts T) ≤ Z.to_nat (max_retries kw))%nat
  ∧ (length (sleeps T) ≤ length (posts T))%nat
  ∧ (length (posts T) ≤ S (length (sleeps T)))%nat
  ∧ (max_retries kw ≤ 0 → T = [])
  ∧ ((api_key kw = None ∨ api_key kw = Some "")
     ∧ (os_getenv "DEEPSEEK_API_KEY" = None ∨ os_getenv "DEEPSEEK_API_KEY" = Some "") →
     T = [])
  ∧ (∀ i secs, T !! i = Some (EvSleep secs) →
               ∃ j req, i = S j ∧ T !! j = Some (EvPost req))
  ∧ (∀ i req, T !! i = Some (EvPost req) →
              (S i < length T)%nat →
              ∃ secs, T !! S i = Some (EvSleep secs)).
Proof.
  cbv zeta.
  assert (Hnocred : (api_key kw = None ∨ api_key kw = Some "")
            ∧ (os_getenv "DEEPSEEK_API_KEY" = None
               ∨ os_getenv "DEEPSEEK_API_KEY" = Some "") →
            (call_deepseek_chat endpoint messages kw []).2 = []).
  { intros [Hk He]. rewrite call_without_credential; [done|].
    by destruct Hk as [-> | ->], He as [-> | ->]. }
  assert (∃ (k : nat) tail,
            (tail = [] ∨ tail = [EvPost (request_of endpoint messages kw)])
            ∧ (k + length tail ≤ Z.to_nat (max_retries kw))%nat
            ∧ (call_deepseek_chat endpoint messages kw []).2
              = retry_trace (request_of endpoint messages kw) (seqZ 1 (Z.of_nat k))
                ++ tail) as (k & tail & Htail & Hk & Hshape).
  { destruct (call_trace_shape endpoint messages kw) as (k & Hk & [-> | [Hlt ->]]).
    - exists k, []. rewrite app_nil_r. split; [by left|]. split; [simpl; lia|done].
    - exists k, [EvPost (request_of endpoint messages kw)].
      split; [by right|]. split; [simpl; lia|done]. }
  destruct (retry_trace_alternates (request_of endpoint messages kw)
              (seqZ 1 (Z.of_nat k)) tail Htail) as [Hs Hp].
  rewrite Hshape in *.
  assert (Hposts : length (posts (retry_trace (request_of endpoint messages kw)
                                    (seqZ 1 (Z.of_nat k)) ++ tail))
                   = (k + length tail)%nat).
  { rewrite posts_app, length_app, posts_retry_trace, length_replicate, length_seqZ.
    destruct Htail as [-> | ->]; simpl; lia. }
  assert (Hsleeps : length (sleeps (retry_trace (request_of endpoint messages kw)
                                      (seqZ 1 (Z.of_nat k)) ++ tail))
                    = k).
  { rewrite sleeps_app, length_app, sleeps_retry_trace, length_fmap, length_seqZ.
    destruct Htail as [-> | ->]; simpl; lia. }
  assert (Hlen : (length tail ≤ 1)%nat) by (destruct Htail as [-> | ->]; simpl; lia).
  rewrite Hposts, Hsleeps.
  split; [lia|]. split; [lia|]. split; [lia|]. split; [|split; [done|split; [|done]]].
  - intros Hmr. destruct k, tail; simpl in Hk; try lia. reflexivity.
  - intros i secs Hi. destruct (Hs i secs Hi) as (j & -> & Hj). by eexists _, _.
Qed.

(** X2: Whatever the transport answers, the sleeps of a run are an initial
    segment of the schedule [min(2^(a-1), 8)] for [a = 1, 2, ...]: each lasts
    between 1 and 8, and together they last at most [8 * max_retries]. *)
Theorem sleeps_follow_the_backoff_schedule endpoint messages kw :
  sleeps (call_deepseek_chat endpoint messages kw []).2
  = (λ a, Z.min (2 ^ (a - 1)) 8)
    <$> seqZ 1 (Z.of_nat (length (sleeps (call_deepseek_chat endpoint messages kw []).2)))
  ∧ Forall (λ secs, 1 ≤ secs ≤ 8)
      (sleeps (call_deepseek_chat endpoint messages kw []).2)
  ∧ foldr Z.add 0 (sleeps (call_deepseek_chat endpoint messages kw []).2)
    ≤ 8 * Z.max 0 (max_retries kw).
Proof.
  assert (∃ k : nat, (k ≤ Z.to_nat (max_retries kw))%nat
                     ∧ sleeps (call_deepseek_chat endpoint messages kw []).2
                       = backoff <$> seqZ 1 (Z.of_nat k)) as (k & Hk & ->).
  { destruct (call_trace_shape endpoint messages kw) as (k & Hk & [-> | [Hlt ->]]);
      exists k; (split; [done|]);
      rewrite ?sleeps_app, sleeps_retry_trace; simpl; by rewrite ?app_nil_r. }
  rewrite length_fmap, length_seqZ, Nat2Z.id.
  assert (Hall : Forall (λ secs, 1 ≤ secs ≤ 8) (backoff <$> seqZ 1 (Z.of_nat k))).
  { apply Forall_fmap, Forall_seqZ. intros a Ha. apply backoff_bounds. lia. }
  split; [done|]. split; [done|].
  assert (Hsum : ∀ l, Forall (λ secs, 1 ≤ secs ≤ 8) l →
                      foldr Z.add 0 l ≤ 8 * Z.of_nat (length l)).
  { induction 1; simpl; lia. }
  specialize (Hsum _ Hall). rewrite length_fmap, length_seqZ, Nat2Z.id in Hsum. lia.
Qed.

(** X3: A value is returned only from an attempt whose answer carried a status
    outside the retry list and outside 400-599 and a body that decodes to
    that very value; that attempt is the last event of the run. *)
Theorem returned_value_is_a_decoded_answer endpoint messages kw v t :
  call_deepseek_chat endpoint messages kw [] = (Ok v, t) →
  ∃ resp,
    transport (pred (length (posts t))) (request_of endpoint messages kw)
    = Responds resp
    ∧ json_loads (text resp) = Some v
    ∧ (status_code resp ∉ [429; 500; 502; 503; 504])
    ∧ ¬ (400 ≤ status_code resp < 600)
    ∧ last t = Some (EvPost (request_of endpoint messages kw))
    ∧ (1 ≤ length (posts t))%nat.
Proof.
  intros Hcall.
  destruct (truthy (py_or (api_key kw) (os_getenv "DEEPSEEK_API_KEY"))) eqn:Hkey;
    [|by rewrite call_without_credential in Hcall].
  destruct (call_cases endpoint messages kw Hkey)
    as [(cause & Hr & _) | [(k & w & Hk & Hr & Hv) | (k & e & Hk & Hr & _)]];
    rewrite Hr in Hcall; [done| |done].
  injection Hcall as -> <-.
  apply verdict_success_inv in Hv as (resp & Hresp & Hs & Hc & Hj).
  exists resp.
  rewrite posts_app, length_app, posts_retry_trace, length_replicate, length_seqZ.
  simpl. replace (pred (Z.to_nat (Z.of_nat k) + 1)) with k by lia.
  split; [done|]. split; [done|]. split; [done|]. split; [done|].
  split; [apply last_snoc | lia].
Qed.

(** X4: The run ends on a sleep only when the loop has run off its end: then
    all [max_retries] attempts were made, the answer to the last one carried
    a status of the retry list, the sleep is the one of attempt
    [max_retries], and what is raised is the generic [RuntimeError]. *)
Theorem trailing_sleep_means_retries_exhausted endpoint messages kw secs :
  last (call_deepseek_chat endpoint messages kw []).2 = Some (EvSleep secs) →
  ∃ cause resp,
    (call_deepseek_chat endpoint messages kw []).1
    = Raise (RuntimeError "Request failed" cause)
    ∧ length (posts (call_deepseek_chat endpoint messages kw []).2)
      = Z.to_nat (max_retries kw)
    ∧ transport (Z.to_nat (max_retries kw - 1)) (request_of endpoint messages kw)
      = Responds resp
    ∧ status_code resp ∈ [429; 500; 502; 503; 504]
    ∧ secs = Z.min (2 ^ (max_retries kw - 1)) 8.
Proof.
  intros Hlast.
  destruct (truthy (py_or (api_key kw) (os_getenv "DEEPSEEK_API_KEY"))) eqn:Hkey;
    [|by rewrite call_without_credential in Hlast].
  destruct (call_cases endpoint messages kw Hkey)
    as [(cause & Hr & Hv) | [(k & w & Hk & Hr & _) | (k & e & Hk & Hr & _)]];
    rewrite Hr in *; simpl in Hlast; [|by rewrite last_snoc in Hlast..].
  destruct (decide (1 ≤ max_retries kw)) as [Hmr|Hmr];
    [|by rewrite seqZ_nil in Hlast by lia].
  destruct (verdict_retriable_inv _ (Hv Hmr)) as (resp & Hresp & Hs).
  exists cause, resp. split; [done|]. simpl.
  rewrite posts_retry_trace, length_replicate, length_seqZ.
  split; [done|]. split; [done|]. split; [done|].
  rewrite retry_trace_snoc in Hlast by done.
  rewrite last_app in Hlast. simpl in Hlast. by injection Hlast as <-.
Qed.

Lemma outside_400_599_not_retriable status :
  ¬ (400 ≤ status < 600) → status ∉ [429; 500; 502; 503; 504].
Proof. intros Hs Hin. rewrite !elem_of_cons, elem_of_nil in Hin. lia. Qed.

(** An answer that is no success: the transport raised, or the status lies
    in 400-599 (the retry list included), or the body does not decode. *)
Lemma verdict_not_success r v :
  (∃ e, r = Fails e)
  ∨ (∃ resp, r = Responds resp
             ∧ (400 ≤ status_code resp < 600 ∨ json_loads (text resp) = None)) →
  verdict r ≠ Success v.
Proof.
  intros H Hv. apply verdict_success_inv in Hv as (resp & -> & _ & Hc & Hj).
  destruct H as [[e [=]] | (resp' & [= <-] & [Hs | Hn])]; [done|congruence].
Qed.

(** ** The request and its credential *)

(** X5: Every request handed to the transport goes to the endpoint passed in,
    with [timeout_s] as its timeout and exactly the headers Authorization,
    Content-Type and Accept.  The bearer token is the [api_key] argument when
    that is a non-empty string, and otherwise the non-empty value of
    DEEPSEEK_API_KEY. *)
Theorem every_request_is_the_configured_one endpoint messages kw req :
  req ∈ posts (call_deepseek_chat endpoint messages kw []).2 →
  url req = endpoint
  ∧ timeout req = timeout_s kw
  ∧ dom (headers req) =@{gset string} {["Authorization"; "Content-Type"; "Accept"]}
  ∧ headers req !! "Content-Type" = Some "application/json"
  ∧ headers req !! "Accept" = Some "application/json"
  ∧ ∃ key, key ≠ ""
           ∧ headers req !! "Authorization" = Some ("Bearer " +:+ key)
           ∧ (api_key kw = Some key
              ∨ ((api_key kw = None ∨ api_key kw = Some "")
                 ∧ os_getenv "DEEPSEEK_API_KEY" = Some key)).
Proof.
  intros Hin. apply posted_request in Hin as [-> Hkey].
  unfold request_of, build_headers. simpl.
  split; [done|]. split; [done|]. split.
  { rewrite !dom_insert_L, dom_empty_L. set_solver. }
  split; [by simplify_map_eq|]. split; [by simplify_map_eq|].
  rewrite lookup_insert_eq.
  destruct (api_key kw) as [[|c k]|] eqn:Hk; unfold py_or in *; simpl in *.
  - destruct (os_getenv "DEEPSEEK_API_KEY") as [[|c k]|] eqn:He; try done.
    exists (String c k). split; [done|]. split; [done|]. right. split; [by right|done].
  - exists (String c k). split; [done|]. split; [done|]. by left.
  - destruct (os_getenv "DEEPSEEK_API_KEY") as [[|c k]|] eqn:He; try done.
    exists (String c k). split; [done|]. split; [done|]. right. split; [by left|done].
Qed.

(** X6: The missing-credential error with an empty trace is what the call gives
    exactly when the [api_key] argument is [None] or empty and
    DEEPSEEK_API_KEY is unset or empty. *)
Theorem missing_credential_error_iff endpoint messages kw :
  call_deepseek_chat endpoint messages kw [] = (Raise missing_api_key, [])
  ↔ (api_key kw = None ∨ api_key kw = Some "")
    ∧ (os_getenv "DEEPSEEK_API_KEY" = None ∨ os_getenv "DEEPSEEK_API_KEY" = Some "").
Proof.
  split.
  - intros Hcall.
    destruct (truthy (py_or (api_key kw) (os_getenv "DEEPSEEK_API_KEY"))) eqn:Hkey.
    + destruct (call_cases endpoint messages kw Hkey)
        as [(cause & Hr & _) | [(k & w & _ & Hr & _) | (k & e & _ & Hr & _)]];
        rewrite Hr in Hcall; [done..|].
      injection Hcall as _ Ht. by destruct (retry_trace _ _).
    + unfold py_or in Hkey.
      destruct (api_key kw) as [[|c k]|]; simpl in Hkey; [|done|];
        (destruct (os_getenv "DEEPSEEK_API_KEY") as [[|c k]|]; [|done|]);
        naive_solver.
  - intros [Hk He]. apply call_without_credential.
    by destruct Hk as [-> | ->], He as [-> | ->].
Qed.

(** ** Further ends of the retry loop *)

(** X7: With [max_retries] zero or negative and a credential at hand the
    transport is never invoked: the trace is empty and the generic
    [RuntimeError] is raised with no cause. *)
Theorem nonpositive_max_retries_never_reaches_the_network endpoint messages kw :
  max_retries kw ≤ 0 →
  truthy (py_or (api_key kw) (os_getenv "DEEPSEEK_API_KEY")) = true →
  call_deepseek_chat endpoint messages kw []
  = (Raise (RuntimeError "Request failed" None), []).
Proof.
  intros Hmr Hkey. rewrite call_with_credential by done. by rewrite seqZ_nil by lia.
Qed.

(** X8: The first answer, when its status lies outside 400-599 (be it 200, 204,
    a 3xx or anything else) and its body decodes, is returned at once: one
    invocation, no sleep. *)
Theorem status_outside_400_599_is_decoded endpoint messages kw resp v :
  truthy (py_or (api_key kw) (os_getenv "DEEPSEEK_API_KEY")) = true →
  1 ≤ max_retries kw →
  transport 0 (request_of endpoint messages kw) = Responds resp →
  ¬ (400 ≤ status_code resp < 600) →
  json_loads (text resp) = Some v →
  call_deepseek_chat endpoint messages kw []
  = (Ok v, [EvPost (request_of endpoint messages kw)]).
Proof.
  intros Hkey Hmr Hresp Hs Hv. rewrite call_with_credential by done.
  rewrite seqZ_cons by lia. simpl for_attempts. unfold mbind, Py_bind.
  rewrite loop_body_verdict. simpl. rewrite Hresp.
  by rewrite (verdict_decoded _ v) by auto using outside_400_599_not_retriable.
Qed.

(** X9: Answers whose statuses lie in 400-599 but not in the retry list (400,
    401, 404, and also 501 or 505) all go the same way: each of the
    [max_retries] attempts is made, with a sleep behind every one but the
    last, and the [HTTPError] of the last answer leaves the call. *)
Theorem unlisted_error_statuses_end_in_http_error endpoint messages kw
    (answers : nat → Response) :
  truthy (py_or (api_key kw) (os_getenv "DEEPSEEK_API_KEY")) = true →
  1 ≤ max_retries kw →
  (∀ i, Z.of_nat i < max_retries kw →
        transport i (request_of endpoint messages kw) = Responds (answers i)
        ∧ 400 ≤ status_code (answers i) < 600
        ∧ status_code (answers i) ∉ [429; 500; 502; 503; 504]) →
  call_deepseek_chat endpoint messages kw []
  = (Raise (HTTPError (answers (Z.to_nat (max_retries kw - 1)))),
     retry_trace (request_of endpoint messages kw) (seqZ 1 (max_retries kw - 1))
     ++ [EvPost (request_of endpoint messages kw)]).
Proof.
  intros Hkey Hmr H.
  apply (call_every_attempt_fails _ _ _ (λ i, HTTPError (answers i))); [done..|].
  intros i Hi. destruct (H i Hi) as (-> & Hs & Hn). by apply verdict_http_error.
Qed.

(** X10: Attempts that do not succeed (the transport raises, the status lies in
    400-599, or the body does not decode) are each followed by a sleep and
    another attempt as long as attempts remain; when attempt [k + 1] then
    brings a decodable answer with a status outside 400-599, its value is
    returned after [k + 1] invocations and the first [k] scheduled sleeps,
    and nothing of the earlier failures is reported. *)
Theorem failed_attempts_then_success endpoint messages kw (k : nat) resp v :
  truthy (py_or (api_key kw) (os_getenv "DEEPSEEK_API_KEY")) = true →
  Z.of_nat k < max_retries kw →
  (∀ i, (i < k)%nat →
        (∃ e, transport i (request_of endpoint messages kw) = Fails e)
        ∨ (∃ r, transport i (request_of endpoint messages kw) = Responds r
                ∧ (400 ≤ status_code r < 600 ∨ json_loads (text r) = None))) →
  transport k (request_of endpoint messages kw) = Responds resp →
  ¬ (400 ≤ status_code resp < 600) →
  json_loads (text resp) = Some v →
  call_deepseek_chat endpoint messages kw []
  = (Ok v, retry_trace (request_of endpoint messages kw) (seqZ 1 (Z.of_nat k))
           ++ [EvPost (request_of endpoint messages kw)])
  ∧ length (posts (call_deepseek_chat endpoint messages kw []).2) = S k
  ∧ sleeps (call_deepseek_chat endpoint messages kw []).2
    = (λ a, Z.min (2 ^ (a - 1)) 8) <$> seqZ 1 (Z.of_nat k).
Proof.
  intros Hkey Hk Hfail Hresp Hs Hv.
  set (req := request_of endpoint messages kw) in *.
  assert (call_deepseek_chat endpoint messages kw []
          = (Ok v, retry_trace req (seqZ 1 (Z.of_nat k)) ++ [EvPost req])) as ->.
  { rewrite call_with_credential by done. fold req.
    replace (max_retries kw)
      with (Z.of_nat k + (max_retries kw - Z.of_nat k)) at 2 by lia.
    rewrite seqZ_app, for_attempts_app by lia.
    destruct (for_attempts_cases req (max_retries kw) (seqZ 1 (Z.of_nat k)) None [])
      as [(le' & -> & _) | [(j & a & w & le' & Hj & _ & Hw)
                           | (j & a & e & Hj & Ha & _)]].
    - rewrite seqZ_cons by lia. simpl app. simpl for_attempts.
      unfold mbind, Py_bind. rewrite loop_body_verdict.
      rewrite posts_retry_trace, length_replicate, length_seqZ, Nat2Z.id, Hresp.
      by rewrite (verdict_decoded _ v) by auto using outside_400_599_not_retriable.
    - apply lookup_seqZ in Hj as [_ Hj]. simpl in Hw.
      by apply verdict_not_success in Hw; [|apply Hfail; lia].
    - apply lookup_seqZ in Hj as [-> Hj]. lia. }
  split; [done|]. simpl.
  rewrite posts_app, sleeps_app, length_app, posts_retry_trace, sleeps_retry_trace,
    length_replicate, length_seqZ.
  simpl. rewrite app_nil_r. split; [lia|done].
Qed.

(** X11: The sleep behind attempt [a ≥ 1] doubles from 1 up to the fourth attempt
    and stays at 8 from there on; it never shrinks from one attempt to the
    next. *)
Theorem backoff_doubles_then_caps a b :
  1 ≤ a ≤ b →
  (a ≤ 4 → backoff a = 2 ^ (a - 1))
  ∧ (4 ≤ a → backoff a = 8)
  ∧ (a < 4 → backoff (a + 1) = 2 * backoff a)
  ∧ backoff a ≤ backoff b.
Proof.
  intros Hab. unfold backoff.
  assert (Hmono : ∀ x y, 1 ≤ x ≤ y → 2 ^ (x - 1) ≤ 2 ^ (y - 1)).
  { intros x y Hxy. apply Z.pow_le_mono_r; lia. }
  split; [|split; [|split]].
  - intros Ha. pose proof (Hmono a 4 ltac:(lia)) as H. simpl in H.
    change (2 ^ (4 - 1)) with 8 in H. lia.
  - intros Ha. pose proof (Hmono 4 a ltac:(lia)) as H.
    change (2 ^ (4 - 1)) with 8 in H. lia.
  - intros Ha. replace (a + 1 - 1) with (Z.succ (a - 1)) by lia.
    rewrite Z.pow_succ_r by lia.
    pose proof (Hmono a 3 ltac:(lia)) as H. change (2 ^ (3 - 1)) with 4 in H. lia.
  - pose proof (Hmono a b Hab). lia.
Qed.

(** X12: When an attempt before the last raises (the transport's own exception,
    the [HTTPError] of an unlisted 4xx/5xx status, or the [ValueError] of an
    undecodable body) and every later attempt meets a status of the retry
    list, the generic [RuntimeError] raised at the end has that earlier
    exception as its cause, whatever it was. *)
Theorem exhaustion_cause_is_the_latest_exception endpoint messages kw (i : nat) e :
  truthy (py_or (api_key kw) (os_getenv "DEEPSEEK_API_KEY")) = true →
  Z.of_nat i < max_retries kw - 1 →
  (∀ j, (j < i)%nat →
        (∃ e', transport j (request_of endpoint messages kw) = Fails e')
        ∨ (∃ r, transport j (request_of endpoint messages kw) = Responds r
                ∧ (400 ≤ status_code r < 600 ∨ json_loads (text r) = None))) →
  (transport i (request_of endpoint messages kw) = Fails e
   ∨ ∃ r, transport i (request_of endpoint messages kw) = Responds r
          ∧ (status_code r ∉ [429; 500; 502; 503; 504])
          ∧ ((400 ≤ status_code r < 600 ∧ e = HTTPError r)
             ∨ (¬ (400 ≤ status_code r < 600)
                ∧ json_loads (text r) = None
                ∧ e = ValueError
                        ("Endpoint returned non-JSON: " +:+ substring 0 200 (text r))
                        (Some (JSONDecodeError (text r)))))) →
  (∀ j, (i < j)%nat → Z.of_nat j < max_retries kw →
        ∃ r, transport j (request_of endpoint messages kw) = Responds r
             ∧ status_code r ∈ [429; 500; 502; 503; 504]) →
  call_deepseek_chat endpoint messages kw []
  = (Raise (RuntimeError "Request failed" (Some e)),
     retry_trace (request_of endpoint messages kw) (seqZ 1 (max_retries kw))).
Proof.
  intros Hkey Hi Hbefore Hat Hafter.
  set (req := request_of endpoint messages kw) in *.
  set (mr := max_retries kw) in *.
  assert (Hv : verdict (transport i req) = Failure e).
  { destruct Hat as [-> | (r & -> & Hn & [[Hs ->] | (Hs & Hj & ->)])]; [done| |].
    - by apply verdict_http_error.
    - by apply verdict_non_json. }
  rewrite call_with_credential by done. fold req mr.
  replace mr with (Z.of_nat i + (1 + (mr - Z.of_nat i - 1))) at 2 3 by lia.
  rewrite !seqZ_app, !retry_trace_app, !for_attempts_app by lia.
  destruct (for_attempts_cases req mr (seqZ 1 (Z.of_nat i)) None [])
    as [(le' & -> & _) | [(j & a & w & le' & Hj & _ & Hw)
                         | (j & a & e' & Hj & Ha & _)]].
  - rewrite (seqZ_cons _ 1), seqZ_nil by lia. simpl app. simpl for_attempts.
    unfold mbind, Py_bind. rewrite loop_body_verdict.
    rewrite posts_retry_trace, length_replicate, length_seqZ, Nat2Z.id, Hv.
    rewrite bool_decide_eq_true_2 by lia.
    unfold mret, Py_ret. rewrite for_attempts_retriable.
    + by rewrite <- !app_assoc.
    + intros j Hj. rewrite length_seqZ in Hj.
      rewrite posts_app, length_app, posts_retry_trace, length_replicate, length_seqZ.
      simpl. rewrite Nat2Z.id.
      destruct (Hafter (i + 1 + j)%nat) as (r & -> & Hs); [lia..|].
      by apply verdict_retriable.
  - apply lookup_seqZ in Hj as [_ Hj]. simpl in Hw.
    by apply verdict_not_success in Hw; [|apply Hbefore; lia].
  - apply lookup_seqZ in Hj as [-> Hj]. lia.
Qed.

End Client.

(** * The script under [if __name__ == "__main__"] (lines 103-119) *)

(** What [Response.json] hands back: the Python value of a JSON document. *)
Inductive Json : Type :=
| JNull
| JBool (b : bool)
| JInt (n : Z)
| JFloat (x : float)
| JStr (s : string)
| JList (items : list Json)
| JDict (fields : gmap string Json).

(** The operand of a subscription [v[...]]: a string or an integer. *)
Inductive Subscript : Type :=
| Key (k : string)
| Index (i : Z).

(** The exceptions a subscription raises. *)
Inductive LookupExc : Type :=
| KeyError (key : Subscript)
| IndexError
| TypeError.

(** [l[i]] on a sequence of length [n]: positions [0 .. n-1], and
    [-n .. -1] counted from the end. *)
Definition sequence_position (n : nat) (i : Z) : option nat :=
  if bool_decide (0 ≤ i < Z.of_nat n) then Some (Z.to_nat i)
  else if bool_decide (- Z.of_nat n ≤ i < 0) then Some (Z.to_nat (Z.of_nat n + i))
  else None.

(** [v[sub]] on a decoded JSON value.  A dict is searched for the key (an
    integer is never among the string keys of a decoded object); a list and
    a string take integers only; nothing else can be subscripted. *)
Definition getitem (v : Json) (sub : Subscript) : LookupExc + Json :=
  match v, sub with
  | JDict fields, Key k =>
      match fields !! k with
      | Some x => inr x
      | None => inl (KeyError sub)
      end
  | JDict _, Index _ => inl (KeyError sub)
  | JList items, Index i =>
      match sequence_position (length items) i ≫= (items !!.) with
      | Some x => inr x
      | None => inl IndexError
      end
  | JStr s, Index i =>
      match sequence_position (String.length s) i ≫= (λ p, String.get p s) with
      | Some c => inr (JStr (String c EmptyString))
      | None => inl IndexError
      end
  | _, _ => inl TypeError
  end.

(** A further subscription on the outcome of an earlier one. *)
Definition then_getitem (r : LookupExc + Json) (sub : Subscript) : LookupExc + Json :=
  match r with
  | inl e => inl e
  | inr v => getitem v sub
  end.

(** How the script ends: it prints a value, or dies of an exception of the
    call or of one of its own subscriptions. *)
Inductive ScriptEnd : Type :=
| Printed (v : Json)
| Uncaught (e : PyExc)
| UncaughtLookup (e : LookupExc).

Definition script_endpoint : string := "https://api.deepseek.com/v1/chat/completions".

Definition script_messages : list (gmap string string) :=
  [ <["role" := "system"]> (<["content" := "You are a concise assistant."]> ∅);
    <["role" := "user"]> (<["content" := "用一句话解释什么是向量数据库？"]> ∅) ].

(** The keyword arguments of the call at lines 107-116; those it leaves out
    keep their defaults. *)
Definition script_kwargs : Kwargs :=
  {| api_key := api_key defaults;
     model := "deepseek-chat";
     temperature := 0.2%float;
     max_tokens := 200;
     timeout_s := timeout_s defaults;
     max_retries := max_retries defaults |}.

Section Script.

Variable json_loads : string → option Json.
Variable environ : gmap string string.
Variable transport : nat → Request → PostResult.

Definition main (t : list Event) : ScriptEnd * list Event :=
  match call_deepseek_chat Json json_loads environ transport
          script_endpoint script_messages script_kwargs t with
  | (Raise e, t') => (Uncaught e, t')
  | (Ok result, t') =>
      match then_getitem
              (then_getitem
                 (then_getitem (getitem result (Key "choices")) (Index 0))
                 (Key "message"))
              (Key "content") with
      | inr content => (Printed content, t')
      | inl e => (UncaughtLookup e, t')
      end
  end.

Lemma getitem_key_inv v k x :
  getitem v (Key k) = inr x → ∃ fields, v = JDict fields ∧ fields !! k = Some x.
Proof.
  destruct v as [| | | | |items|fields]; simpl; try done.
  destruct (fields !! k) as [y|] eqn:Hy; [|done]. intros [= ->]. by exists fields.
Qed.

Lemma getitem_first_dict_inv v fields :
  getitem v (Index 0) = inr (JDict fields) →
  ∃ rest, v = JList (JDict fields :: rest).
Proof.
  destruct v as [| | | |s|items|d]; simpl; try done.
  - by destruct (sequence_position _ _ ≫= _).
  - destruct items as [|x rest]; [done|].
    unfold sequence_position. rewrite bool_decide_eq_true_2 by (simpl; lia).
    simpl. intros [= ->]. by exists rest.
Qed.

(** X13: The script prints a value exactly when the call returned an object
    whose "choices" is a list that opens with an object whose "message" is an
    object with a "content" entry; what it prints is that entry, and the
    trace is the call's. *)
Theorem script_prints_the_first_choice content t :
  main [] = (Printed content, t)
  ↔ ∃ result first rest message,
      call_deepseek_chat Json json_loads environ transport
        script_endpoint script_messages script_kwargs []
      = (Ok (JDict result), t)
      ∧ result !! "choices" = Some (JList (JDict first :: rest))
      ∧ first !! "message" = Some (JDict message)
      ∧ message !! "content" = Some content.
Proof.
  unfold main. split.
  - destruct (call_deepseek_chat _ _ _ _ _ _ _ _) as [[result|e] t']; [|done].
    destruct (getitem result (Key "choices")) as [e|choices] eqn:H1; [done|].
    simpl then_getitem at 3.
    destruct (getitem choices (Index 0)) as [e|choice] eqn:H2; [done|].
    simpl then_getitem at 2.
    destruct (getitem choice (Key "message")) as [e|message] eqn:H3; [done|].
    simpl then_getitem.
    destruct (getitem message (Key "content")) as [e|c] eqn:H4; [done|].
    intros [= -> ->].
    apply getitem_key_inv in H1 as (d & -> & Hd).
    apply getitem_key_inv in H4 as (m & -> & Hm).
    apply getitem_key_inv in H3 as (f & -> & Hf).
    apply getitem_first_dict_inv in H2 as (rest & ->).
    by exists d, f, rest, m.
  - intros (d & f & rest & m & -> & Hd & Hf & Hm). simpl.
    rewrite Hd. simpl. rewrite Hf. simpl. by rewrite Hm.
Qed.

(** X14: When the call returns a value of another shape the script dies of the
    first subscription that fails and prints nothing: [TypeError] when the
    value is no object, [KeyError] for "choices" when the object has no such
    entry, [IndexError] when "choices" is an empty list. *)
Theorem script_dies_on_unexpected_shapes result t :
  call_deepseek_chat Json json_loads environ transport
    script_endpoint script_messages script_kwargs []
  = (Ok result, t) →
  ((∀ fields, result ≠ JDict fields) → main [] = (UncaughtLookup TypeError, t))
  ∧ (∀ fields, result = JDict fields →
       (fields !! "choices" = None →
        main [] = (UncaughtLookup (KeyError (Key "choices")), t))
       ∧ (fields !! "choices" = Some (JList []) →
          main [] = (UncaughtLookup IndexError, t))).
Proof.
  intros Hcall. unfold main. rewrite Hcall. split.
  - intros Hshape. by destruct result as [| | | | | |fields]; [..|destruct (Hshape fields)].
  - intros fields ->. simpl. by split; intros ->.
Qed.

(** X15: The script passes no [api_key]: with DEEPSEEK_API_KEY unset or empty it
    dies of the missing-credential error before any request is made. *)
Theorem script_needs_the_environment_key :
  environ !! "DEEPSEEK_API_KEY" = None ∨ environ !! "DEEPSEEK_API_KEY" = Some "" →
  main [] = (Uncaught missing_api_key, []).
Proof.
  intros He. unfold main.
  by rewrite (call_without_credential Json json_loads environ transport)
    by (unfold os_getenv; by destruct He as [-> | ->]).
Qed.

End Script.

(** * utils.py: the user mapping built from the rows of user.csv
      (lines 8-15) *)

Module Utils.

(** The [KeyError] of a subscription [row[...]]. *)
Inductive RowError : Type :=
| KeyError (key : string).

(** Lines 12-15, for one row as [csv.DictReader] yields it: a dict from the
    field names to the cells, [None] where the line is short of cells.  The
    right-hand side is evaluated first, [row['Email']] before
    [row['External Id']], and the subscript [row['Display Name']] after it;
    the entry then replaces whatever the name had before. *)
Definition add_row (user_map : gmap (option string) (gmap string (option string)))
    (row : gmap string (option string))
    : RowError + gmap (option string) (gmap string (option string)) :=
  match row !! "Email" with
  | None => inl (KeyError "Email")
  | Some email =>
      match row !! "External Id" with
      | None => inl (KeyError "External Id")
      | Some external_id =>
          match row !! "Display Name" with
          | None => inl (KeyError "Display Name")
          | Some display_name =>
              inr (<[display_name :=
                       <["Email" := email]> (<["ExternalId" := external_id]> ∅)]>
                     user_map)
          end
      end
  end.

(** Line 11: the [for] loop over the rows. *)
Fixpoint read_rows (rows : list (gmap string (option string)))
    (user_map : gmap (option string) (gmap string (option string)))
    : RowError + gmap (option string) (gmap string (option string)) :=
  match rows with
  | [] => inr user_map
  | row :: rest =>
      match add_row user_map row with
      | inl e => inl e
      | inr user_map => read_rows rest user_map
      end
  end.

(** Lines 8-15: the loop started on the empty [user_map]. *)
Definition build_user_map (rows : list (gmap string (option string)))
    : RowError + gmap (option string) (gmap string (option string)) :=
  read_rows rows ∅.

Lemma add_row_inr user_map row m :
  add_row user_map row = inr m →
  ∃ email external_id display_name,
    row !! "Email" = Some email
    ∧ row !! "External Id" = Some external_id
    ∧ row !! "Display Name" = Some display_name
    ∧ m = <[display_name :=
              <["Email" := email]> (<["ExternalId" := external_id]> ∅)]> user_map.
Proof.
  unfold add_row.
  destruct (row !! "Email") as [e|]; [|done].
  destruct (row !! "External Id") as [x|]; [|done].
  destruct (row !! "Display Name") as [n|]; [|done].
  intros [= <-]. by exists e, x, n.
Qed.

Lemma add_row_inl user_map row key :
  add_row user_map row = inl (KeyError key) →
  (row !! "Email" = None ∧ key = "Email")
  ∨ (is_Some (row !! "Email") ∧ row !! "External Id" = None ∧ key = "External Id")
  ∨ (is_Some (row !! "Email") ∧ is_Some (row !! "External Id")
     ∧ row !! "Display Name" = None ∧ key = "Display Name").
Proof.
  unfold add_row.
  destruct (row !! "Email") as [e|]; [|intros [= <-]; by left].
  destruct (row !! "External Id") as [x|]; [|intros [= <-]; right; left; eauto].
  destruct (row !! "Display Name") as [n|]; [done|].
  intros [= <-]. right; right. eauto.
Qed.

Lemma first_missing_unique (row : gmap string (option string)) key key' :
  (row !! "Email" = None ∧ key = "Email")
  ∨ (is_Some (row !! "Email") ∧ row !! "External Id" = None ∧ key = "External Id")
  ∨ (is_Some (row !! "Email") ∧ is_Some (row !! "External Id")
     ∧ row !! "Display Name" = None ∧ key = "Display Name") →
  (row !! "Email" = None ∧ key' = "Email")
  ∨ (is_Some (row !! "Email") ∧ row !! "External Id" = None ∧ key' = "External Id")
  ∨ (is_Some (row !! "Email") ∧ is_Some (row !! "External Id")
     ∧ row !! "Display Name" = None ∧ key' = "Display Name") →
  key' = key.
Proof.
  destruct (row !! "Email") as [e|], (row !! "External Id") as [x|],
    (row !! "Display Name") as [n|];
    intros [[? ->] | [(H1 & ? & ->) | (H1 & H2 & ? & ->)]]
           [[? ->] | [(H3 & ? & ->) | (H3 & H4 & ? & ->)]];
    first [done | by exfalso; eapply is_Some_None].
Qed.

Lemma read_rows_lookup rows m0 m name info :
  read_rows rows m0 = inr m →
  m !! name = Some info
  ↔ (∃ i row email external_id,
        rows !! i = Some row
        ∧ row !! "Display Name" = Some name
        ∧ row !! "Email" = Some email
        ∧ row !! "External Id" = Some external_id
        ∧ info = <["Email" := email]> (<["ExternalId" := external_id]> ∅)
        ∧ ∀ j row', (i < j)%nat → rows !! j = Some row' →
                    row' !! "Display Name" ≠ Some name)
    ∨ (m0 !! name = Some info
       ∧ ∀ j row', rows !! j = Some row' → row' !! "Display Name" ≠ Some name).
Proof.
  revert m0. induction rows as [|r rest IH]; intros m0 Hread.
  { injection Hread as ->. split; [by right|]. by intros [(i & ? & ? & ? & [=] & _) | [? _]]. }
  simpl in Hread. destruct (add_row m0 r) as [e|m1] eqn:Hadd; [done|].
  apply add_row_inr in Hadd as (e0 & x0 & n0 & He0 & Hx0 & Hn0 & ->).
  rewrite (IH _ Hread). clear IH Hread. split.
  - intros [(i & row & e & x & Hi & Hn & He & Hx & -> & Hlast) | [Hm1 Hnone]].
    + left. exists (S i), row, e, x. repeat split; try done.
      intros [|j] row' Hj Hrow'; [lia|]. apply (Hlast j); [lia|done].
    + destruct (decide (n0 = name)) as [->|Hne].
      * rewrite lookup_insert_eq in Hm1. injection Hm1 as <-.
        left. exists 0%nat, r, e0, x0. repeat split; try done.
        intros [|j] row' Hj Hrow'; [lia|]. by apply (Hnone j).
      * rewrite lookup_insert_ne in Hm1 by done. right. split; [done|].
        intros [|j] row' Hrow'; [|by apply (Hnone j)].
        injection Hrow' as <-. congruence.
  - intros [(i & row & e & x & Hi & Hn & He & Hx & -> & Hlast) | [Hm0 Hnone]].
    + destruct i as [|i].
      * injection Hi as <-. right.
        assert (n0 = name) as -> by congruence.
        assert (e0 = e) as -> by congruence.
        assert (x0 = x) as -> by congruence.
        rewrite lookup_insert_eq. split; [done|].
        intros j row' Hrow'. apply (Hlast (S j)); [lia|done].
      * left. exists i, row, e, x. repeat split; try done.
        intros j row' Hj Hrow'. apply (Hlast (S j)); [lia|done].
    + right. assert (n0 ≠ name) as Hne.
      { intros ->. by apply (Hnone 0%nat r). }
      rewrite lookup_insert_ne by done. split; [done|].
      intros j row' Hrow'. by apply (Hnone (S j)).
Qed.

(** X16: When the loop gets through all rows, [user_map] has an entry under a
    display name exactly when some row carries that name, and the entry holds
    the Email and External Id cells of the last such row: a later row with
    the same display name silently replaces an earlier one. *)
Theorem user_map_keeps_the_last_row_of_a_name rows user_map name info :
  build_user_map rows = inr user_map →
  user_map !! name = Some info
  ↔ ∃ i row email external_id,
      rows !! i = Some row
      ∧ row !! "Display Name" = Some name
      ∧ row !! "Email" = Some email
      ∧ row !! "External Id" = Some external_id
      ∧ info = <["Email" := email]> (<["ExternalId" := external_id]> ∅)
      ∧ ∀ j row', (i < j)%nat → rows !! j = Some row' →
                  row' !! "Display Name" ≠ Some name.
Proof.
  intros Hread. rewrite (read_rows_lookup _ _ _ _ _ Hread).
  split; [|by left]. intros [H | [H _]]; [done|]. by rewrite lookup_empty in H.
Qed.

(** X17: The loop raises [KeyError] exactly when a row lacks one of the three
    columns; the key named is the first one missing, in the order Email,
    External Id, Display Name, of the first such row. *)
Theorem missing_column_raises_key_error rows key :
  build_user_map rows = inl (KeyError key)
  ↔ ∃ i row,
      rows !! i = Some row
      ∧ (∀ j row', (j < i)%nat → rows !! j = Some row' →
                   is_Some (row' !! "Email") ∧ is_Some (row' !! "External Id")
                   ∧ is_Some (row' !! "Display Name"))
      ∧ ((row !! "Email" = None ∧ key = "Email")
         ∨ (is_Some (row !! "Email") ∧ row !! "External Id" = None
            ∧ key = "External Id")
         ∨ (is_Some (row !! "Email") ∧ is_Some (row !! "External Id")
            ∧ row !! "Display Name" = None ∧ key = "Display Name")).
Proof.
  unfold build_user_map. generalize (∅ : gmap (option string) (gmap string (option string))).
  induction rows as [|r rest IH]; intros m0.
  { split; [done|]. by intros (i & row & [=] & _). }
  simpl. destruct (add_row m0 r) as [e|m1] eqn:Hadd.
  - destruct e as [k]. apply add_row_inl in Hadd. split.
    + intros [= ->]. exists 0%nat, r. split; [done|]. split; [intros; lia|done].
    + intros (i & row & Hi & Hbefore & Hrow). destruct i as [|i].
      * injection Hi as <-. do 2 f_equal. by apply (first_missing_unique r).
      * destruct (Hbefore 0%nat r) as (H1 & H2 & H3); [lia|done|].
        destruct Hadd as [[Hn _] | [(_ & Hn & _) | (_ & _ & Hn & _)]];
          rewrite Hn in *;
          first [by destruct H1 | by destruct H2 | by destruct H3].
  - apply add_row_inr in Hadd as (e0 & x0 & n0 & He0 & Hx0 & Hn0 & _).
    rewrite IH. split.
    + intros (i & row & Hi & Hbefore & Hrow). exists (S i), row.
      split; [done|]. split; [|done].
      intros [|j] row' Hj Hrow'; [|apply (Hbefore j); [lia|done]].
      injection Hrow' as <-. by rewrite He0, Hx0, Hn0.
    + intros (i & row & Hi & Hbefore & Hrow). destruct i as [|i].
      * injection Hi as <-. rewrite He0, Hx0, Hn0 in Hrow.
        destruct Hrow as [[? _] | [(_ & ? & _) | (_ & _ & ? & _)]]; done.
      * exists i, row. split; [done|]. split; [|done].
        intros j row' Hj Hrow'. apply (Hbefore (S j)); [lia|done].
Qed.

End Utils.

(** ** The theorems at concrete inputs *)

Lemma missing_credential_witness :
  call_deepseek_chat string brace_loads ∅
    (scripted [] (Responds (mkResponse 200 "{}"))) chat_url hi defaults []
  = (Raise missing_api_key, [])
  ∧ posts (call_deepseek_chat string brace_loads ∅
             (scripted [] (Responds (mkResponse 200 "{}"))) chat_url hi defaults []).2
    = [].
Proof.
  apply (missing_credential_fails_before_network string brace_loads ∅
           (scripted [] (Responds (mkResponse 200 "{}"))) chat_url hi defaults);
    reflexivity.
Defined.

Lemma empty_api_key_witness :
  call_deepseek_chat string brace_loads (<["DEEPSEEK_API_KEY" := ""]> ∅)
    (scripted [] (Responds (mkResponse 200 "{}"))) chat_url hi
    (with_api_key (Some "") defaults) []
  = (Raise missing_api_key, [])
  ∧ ∃ req rest,
      (call_deepseek_chat string brace_loads (<["DEEPSEEK_API_KEY" := "sk-env"]> ∅)
         (scripted [] (Responds (mkResponse 200 "{}"))) chat_url hi
         (with_api_key (Some "") defaults) []).2
      = EvPost req :: rest
      ∧ headers req !! "Authorization" = Some ("Bearer " +:+ "sk-env").
Proof.
  split.
  - apply (empty_api_key_falls_back_to_environment string brace_loads
             (<["DEEPSEEK_API_KEY" := ""]> ∅)
             (scripted [] (Responds (mkResponse 200 "{}"))) chat_url hi
             (with_api_key (Some "") defaults));
      [reflexivity | right; reflexivity].
  - apply (proj2 (proj2 (proj2
             (proj2 (proj2 (proj2
                (empty_api_key_falls_back_to_environment string brace_loads
                   (<["DEEPSEEK_API_KEY" := "sk-env"]> ∅)
                   (scripted [] (Responds (mkResponse 200 "{}"))) chat_url hi
                   (with_api_key (Some "") defaults) eq_refl)))
                "sk-env" ltac:(done) eq_refl))));
      simpl; lia.
Defined.

Lemma rate_limited_then_success_witness :
  ∃ t, call_deepseek_chat string brace_loads ∅
         (scripted [Responds (mkResponse 429 "slow down");
                    Responds (mkResponse 429 "slow down")]
                   (Responds (mkResponse 200 "{}")))
         chat_url hi keyed []
       = (Ok "{}", t)
       ∧ length (posts t) = 3%nat
       ∧ sleeps t = [1; 2]
       ∧ length (sleeps t) = 2%nat
       ∧ (∀ i, Z.of_nat i < 3 - 1 → sleeps t !! i = Some (Z.min (2 ^ Z.of_nat i) 8)).
Proof.
  apply (rate_limited_then_success string brace_loads ∅
           (scripted [Responds (mkResponse 429 "slow down");
                      Responds (mkResponse 429 "slow down")]
                     (Responds (mkResponse 200 "{}")))
           chat_url hi keyed 3 "{}" "{}").
  - reflexivity.
  - simpl. lia.
  - intros [|[|i]] Hi; [by eexists..|lia].
  - reflexivity.
  - reflexivity.
Defined.

Lemma retriable_status_witness :
  loop_body string brace_loads (scripted [] (Responds (mkResponse 503 "busy")))
    hi_request 3 3 None []
  = (Ok (Continue string, None), [EvPost hi_request; EvSleep 4])
  ∧ call_deepseek_chat string brace_loads ∅
      (scripted [] (Responds (mkResponse 503 "busy"))) chat_url hi keyed []
    = (Raise (RuntimeError "Request failed" None),
       [EvPost hi_request; EvSleep 1; EvPost hi_request; EvSleep 2;
        EvPost hi_request; EvSleep 4])
  ∧ call_deepseek_chat string brace_loads ∅
      (scripted [Fails (ReadTimeout "timed out")] (Responds (mkResponse 503 "busy")))
      chat_url hi keyed []
    = (Raise (RuntimeError "Request failed" (Some (ReadTimeout "timed out"))),
       [EvPost hi_request; EvSleep 1; EvPost hi_request; EvSleep 2;
        EvPost hi_request; EvSleep 4]).
Proof.
  split; [|split].
  - apply (proj1 (retriable_status_backs_off_and_exhausts string brace_loads ∅
                    (scripted [] (Responds (mkResponse 503 "busy")))
                    chat_url hi keyed) hi_request 3 None []
                 (mkResponse 503 "busy"));
      [lia | reflexivity | compute_done].
  - apply (proj1 (proj2 (retriable_status_backs_off_and_exhausts string brace_loads ∅
                           (scripted [] (Responds (mkResponse 503 "busy")))
                           chat_url hi keyed)));
      [reflexivity|].
    intros i _. exists (mkResponse 503 "busy"). split; [reflexivity | compute_done].
  - apply (proj2 (proj2 (retriable_status_backs_off_and_exhausts string brace_loads ∅
                           (scripted [Fails (ReadTimeout "timed out")]
                                     (Responds (mkResponse 503 "busy")))
                           chat_url hi keyed))
                 1 (λ _, ReadTimeout "timed out"));
      [reflexivity | simpl; lia | |].
    + intros [|i] Hi; [reflexivity | lia].
    + intros [|i] Hi; [lia|].
      exists (mkResponse 503 "busy"). split; [by destruct i | compute_done].
Defined.

Lemma exhausted_retries_witness :
  ∃ t t0,
    call_deepseek_chat string brace_loads ∅
      (scripted [Responds (mkResponse 429 "slow down")]
                (Responds (mkResponse 502 "bad gateway")))
      chat_url hi keyed []
    = (Raise (RuntimeError "Request failed" None), t)
    ∧ length (posts t) = 3%nat
    ∧ length (sleeps t) = 3%nat
    ∧ t = t0 ++ [EvPost hi_request; EvSleep 4]
    ∧ length (posts t0) = 2%nat.
Proof.
  apply (exhausted_retries_sleep_after_final_attempt string brace_loads ∅
           (scripted [Responds (mkResponse 429 "slow down")]
                     (Responds (mkResponse 502 "bad gateway")))
           chat_url hi keyed);
    [reflexivity | simpl; lia |].
  intros [|i] _.
  - exists (mkResponse 429 "slow down"). split; [reflexivity | compute_done].
  - exists (mkResponse 502 "bad gateway"). split; [by destruct i | compute_done].
Defined.

Lemma connection_errors_witness :
  call_deepseek_chat string brace_loads ∅ refusing chat_url hi keyed []
  = (Raise (ConnectionError "refused (3)"),
     [EvPost hi_request; EvSleep 1; EvPost hi_request; EvSleep 2;
      EvPost hi_request]).
Proof.
  apply (connection_errors_exhaust_three_attempts string brace_loads ∅ refusing
           chat_url hi keyed
           (λ n, match n with
                 | 0%nat => "refused (1)"
                 | 1%nat => "refused (2)"
                 | _ => "refused (3)"
                 end));
    reflexivity.
Defined.

Lemma zero_retries_witness :
  call_deepseek_chat string brace_loads ∅
    (scripted [] (Responds (mkResponse 200 "{}"))) chat_url hi
    (with_max_retries 0 keyed) []
  = (Raise (RuntimeError "Request failed" None), [])
  ∧ posts (call_deepseek_chat string brace_loads ∅
             (scripted [] (Responds (mkResponse 200 "{}"))) chat_url hi
             (with_max_retries 0 keyed) []).2
    = [].
Proof.
  apply (zero_retries_fails_without_network string brace_loads ∅
           (scripted [] (Responds (mkResponse 200 "{}"))) chat_url hi
           (with_max_retries 0 keyed));
    reflexivity.
Defined.

Lemma outbound_payload_witness :
  dom (json hi_request)
  =@{gset string} {["model"; "messages"; "temperature"; "max_tokens"]}
  ∧ json hi_request !! "model" = Some (PyStr "deepseek-chat")
  ∧ json hi_request !! "messages" = Some (PyMessages hi)
  ∧ json hi_request !! "temperature" = Some (PyFloat 0.7%float)
  ∧ json hi_request !! "max_tokens" = Some (PyInt 512).
Proof.
  apply (outbound_payload_is_the_documented_one string brace_loads ∅
           (scripted [] (Responds (mkResponse 200 "{}"))) chat_url hi keyed
           hi_request).
  vm_compute. left.
Defined.

Lemma unauthorized_witness :
  call_deepseek_chat string brace_loads ∅
    (scripted [] (Responds (mkResponse 401 "Unauthorized"))) chat_url hi keyed []
  = (Raise (HTTPError (mkResponse 401 "Unauthorized")),
     [EvPost hi_request; EvSleep 1; EvPost hi_request; EvSleep 2;
      EvPost hi_request])
  ∧ length (posts (call_deepseek_chat string brace_loads ∅
                     (scripted [] (Responds (mkResponse 401 "Unauthorized")))
                     chat_url hi keyed []).2)
    = 3%nat.
Proof.
  apply (unauthorized_is_retried_until_exhausted string brace_loads ∅
           (scripted [] (Responds (mkResponse 401 "Unauthorized")))
           chat_url hi keyed "Unauthorized");
    [reflexivity | simpl; lia | reflexivity].
Defined.

Lemma decode_failure_witness :
  call_deepseek_chat string brace_loads ∅
    (scripted [] (Responds (mkResponse 200 "not valid json"))) chat_url hi keyed []
  = (Raise (ValueError "Endpoint returned non-JSON: not valid json"
                       (Some (JSONDecodeError "not valid json"))),
     [EvPost hi_request; EvSleep 1; EvPost hi_request; EvSleep 2;
      EvPost hi_request])
  ∧ length (posts (call_deepseek_chat string brace_loads ∅
                     (scripted [] (Responds (mkResponse 200 "not valid json")))
                     chat_url hi keyed []).2)
    = 3%nat.
Proof.
  apply (decode_failure_is_retried_until_exhausted string brace_loads ∅
           (scripted [] (Responds (mkResponse 200 "not valid json")))
           chat_url hi keyed "not valid json");
    [reflexivity | simpl; lia | reflexivity | reflexivity].
Defined.

Lemma returned_value_witness :
  ∃ resp,
    scripted [Responds (mkResponse 429 "slow down")] (Responds (mkResponse 200 "{}"))
      (pred (length (posts [EvPost hi_request; EvSleep 1; EvPost hi_request])))
      hi_request
    = Responds resp
    ∧ brace_loads (text resp) = Some "{}"
    ∧ (status_code resp ∉ [429; 500; 502; 503; 504])
    ∧ ¬ (400 ≤ status_code resp < 600)
    ∧ last [EvPost hi_request; EvSleep 1; EvPost hi_request] = Some (EvPost hi_request)
    ∧ (1 ≤ length (posts [EvPost hi_request; EvSleep 1; EvPost hi_request]))%nat.
Proof.
  apply (returned_value_is_a_decoded_answer string brace_loads ∅
           (scripted [Responds (mkResponse 429 "slow down")]
                     (Responds (mkResponse 200 "{}")))
           chat_url hi keyed "{}"
           [EvPost hi_request; EvSleep 1; EvPost hi_request]).
  reflexivity.
Defined.

Lemma trailing_sleep_witness :
  ∃ cause resp,
    (call_deepseek_chat string brace_loads ∅
       (scripted [] (Responds (mkResponse 503 "busy"))) chat_url hi keyed []).1
    = Raise (RuntimeError "Request failed" cause)
    ∧ length (posts (call_deepseek_chat string brace_loads ∅
                       (scripted [] (Responds (mkResponse 503 "busy")))
                       chat_url hi keyed []).2)
      = 3%nat
    ∧ scripted [] (Responds (mkResponse 503 "busy")) 2%nat hi_request = Responds resp
    ∧ status_code resp ∈ [429; 500; 502; 503; 504]
    ∧ 4 = Z.min (2 ^ (3 - 1)) 8.
Proof.
  apply (trailing_sleep_means_retries_exhausted string brace_loads ∅
           (scripted [] (Responds (mkResponse 503 "busy"))) chat_url hi keyed 4).
  reflexivity.
Defined.

Lemma configured_request_witness :
  url hi_request = chat_url
  ∧ timeout hi_request = 60
  ∧ dom (headers hi_request)
    =@{gset string} {["Authorization"; "Content-Type"; "Accept"]}
  ∧ headers hi_request !! "Content-Type" = Some "application/json"
  ∧ headers hi_request !! "Accept" = Some "application/json"
  ∧ ∃ key, key ≠ ""
           ∧ headers hi_request !! "Authorization" = Some ("Bearer " +:+ key)
           ∧ (Some "sk-test" = Some key
              ∨ ((Some "sk-test" = None ∨ Some "sk-test" = Some "")
                 ∧ os_getenv (<["DEEPSEEK_API_KEY" := "sk-env"]> ∅) "DEEPSEEK_API_KEY"
                   = Some key)).
Proof.
  apply (every_request_is_the_configured_one string brace_loads
           (<["DEEPSEEK_API_KEY" := "sk-env"]> ∅)
           (scripted [] (Responds (mkResponse 200 "{}"))) chat_url hi keyed
           hi_request).
  vm_compute. left.
Defined.

Lemma nonpositive_max_retries_witness :
  call_deepseek_chat string brace_loads ∅
    (scripted [] (Responds (mkResponse 200 "{}"))) chat_url hi
    (with_max_retries (-2) keyed) []
  = (Raise (RuntimeError "Request failed" None), []).
Proof.
  apply (nonpositive_max_retries_never_reaches_the_network string brace_loads ∅
           (scripted [] (Responds (mkResponse 200 "{}"))) chat_url hi
           (with_max_retries (-2) keyed));
    [simpl; lia | reflexivity].
Defined.

Lemma status_outside_400_599_witness :
  call_deepseek_chat string brace_loads ∅
    (scripted [] (Responds (mkResponse 302 "{}"))) chat_url hi keyed []
  = (Ok "{}", [EvPost hi_request]).
Proof.
  apply (status_outside_400_599_is_decoded string brace_loads ∅
           (scripted [] (Responds (mkResponse 302 "{}"))) chat_url hi keyed
           (mkResponse 302 "{}") "{}");
    [reflexivity | simpl; lia | reflexivity | simpl; lia | reflexivity].
Defined.

Lemma unlisted_error_statuses_witness :
  call_deepseek_chat string brace_loads ∅
    (scripted [Responds (mkResponse 404 "not found")]
              (Responds (mkResponse 501 "not implemented")))
    chat_url hi keyed []
  = (Raise (HTTPError (mkResponse 501 "not implemented")),
     [EvPost hi_request; EvSleep 1; EvPost hi_request; EvSleep 2;
      EvPost hi_request]).
Proof.
  apply (unlisted_error_statuses_end_in_http_error string brace_loads ∅
           (scripted [Responds (mkResponse 404 "not found")]
                     (Responds (mkResponse 501 "not implemented")))
           chat_url hi keyed
           (λ i, match i with
                 | 0%nat => mkResponse 404 "not found"
                 | _ => mkResponse 501 "not implemented"
                 end));
    [reflexivity | simpl; lia |].
  intros [|i] _; (split; [reflexivity | split; [simpl; lia | compute_done]]).
Defined.

Lemma failed_attempts_then_success_witness :
  call_deepseek_chat string brace_loads ∅
    (scripted [Fails (ConnectionError "reset"); Responds (mkResponse 404 "not found")]
              (Responds (mkResponse 200 "{}")))
    chat_url hi keyed []
  = (Ok "{}", [EvPost hi_request; EvSleep 1; EvPost hi_request; EvSleep 2;
               EvPost hi_request])
  ∧ length (posts (call_deepseek_chat string brace_loads ∅
                     (scripted [Fails (ConnectionError "reset");
                                Responds (mkResponse 404 "not found")]
                               (Responds (mkResponse 200 "{}")))
                     chat_url hi keyed []).2)
    = 3%nat
  ∧ sleeps (call_deepseek_chat string brace_loads ∅
              (scripted [Fails (ConnectionError "reset");
                         Responds (mkResponse 404 "not found")]
                        (Responds (mkResponse 200 "{}")))
              chat_url hi keyed []).2
    = [1; 2].
Proof.
  apply (failed_attempts_then_success string brace_loads ∅
           (scripted [Fails (ConnectionError "reset");
                      Responds (mkResponse 404 "not found")]
                     (Responds (mkResponse 200 "{}")))
           chat_url hi keyed 2 (mkResponse 200 "{}") "{}").
  - reflexivity.
  - simpl. lia.
  - intros [|[|i]] Hi; [| |lia].
    + left. by eexists.
    + right. eexists. split; [reflexivity|]. left. simpl. lia.
  - reflexivity.
  - simpl. lia.
  - reflexivity.
Defined.

Lemma backoff_doubles_witness :
  (3 ≤ 4 → backoff 3 = 2 ^ (3 - 1))
  ∧ (4 ≤ 3 → backoff 3 = 8)
  ∧ (3 < 4 → backoff (3 + 1) = 2 * backoff 3)
  ∧ backoff 3 ≤ backoff 5.
Proof. apply (backoff_doubles_then_caps 3 5). lia. Defined.

Lemma exhaustion_cause_witness :
  call_deepseek_chat string brace_loads ∅
    (scripted [Responds (mkResponse 401 "Unauthorized")]
              (Responds (mkResponse 503 "busy")))
    chat_url hi keyed []
  = (Raise (RuntimeError "Request failed"
              (Some (HTTPError (mkResponse 401 "Unauthorized")))),
     [EvPost hi_request; EvSleep 1; EvPost hi_request; EvSleep 2;
      EvPost hi_request; EvSleep 4]).
Proof.
  apply (exhaustion_cause_is_the_latest_exception string brace_loads ∅
           (scripted [Responds (mkResponse 401 "Unauthorized")]
                     (Responds (mkResponse 503 "busy")))
           chat_url hi keyed 0 (HTTPError (mkResponse 401 "Unauthorized"))).
  - reflexivity.
  - simpl. lia.
  - intros j Hj. lia.
  - right. exists (mkResponse 401 "Unauthorized").
    split; [reflexivity|]. split; [compute_done|]. left. split; [simpl; lia | reflexivity].
  - intros [|j] Hj _; [lia|]. exists (mkResponse 503 "busy").
    split; [by destruct j | compute_done].
Defined.

(** *** The script and the user mapping at concrete inputs *)

Definition chat_message : gmap string Json :=
  <["role" := JStr "assistant"]> (<["content" := JStr "An index over embeddings."]> ∅).

Definition chat_choice : gmap string Json :=
  <["index" := JInt 0]> (<["message" := JDict chat_message]> ∅).

Definition chat_reply : gmap string Json :=
  <["id" := JStr "chatcmpl-1"]> (<["choices" := JList [JDict chat_choice]]> ∅).

Definition error_reply : gmap string Json :=
  <["error" := JStr "model overloaded"]> ∅.

(** A decoder that knows three bodies by name. *)
Definition canned_loads (body : string) : option Json :=
  if String.eqb body "chat" then Some (JDict chat_reply)
  else if String.eqb body "error" then Some (JDict error_reply)
  else if String.eqb body "[]" then Some (JList [])
  else None.

Definition env_key : gmap string string := <["DEEPSEEK_API_KEY" := "sk-env"]> ∅.

Lemma script_prints_witness :
  main canned_loads env_key (scripted [] (Responds (mkResponse 200 "chat"))) []
  = (Printed (JStr "An index over embeddings."),
     [EvPost (request_of env_key script_endpoint script_messages script_kwargs)]).
Proof.
  apply (proj2 (script_prints_the_first_choice canned_loads env_key
                  (scripted [] (Responds (mkResponse 200 "chat")))
                  (JStr "An index over embeddings.")
                  [EvPost (request_of env_key script_endpoint script_messages
                             script_kwargs)])).
  exists chat_reply, chat_choice, [], chat_message.
  repeat split; reflexivity.
Defined.

Lemma script_dies_witness :
  main canned_loads env_key (scripted [] (Responds (mkResponse 200 "error"))) []
  = (UncaughtLookup (KeyError (Key "choices")),
     [EvPost (request_of env_key script_endpoint script_messages script_kwargs)]).
Proof.
  apply (proj1 (proj2 (script_dies_on_unexpected_shapes canned_loads env_key
                         (scripted [] (Responds (mkResponse 200 "error")))
                         (JDict error_reply)
                         [EvPost (request_of env_key script_endpoint script_messages
                                    script_kwargs)]
                         ltac:(reflexivity))
                      error_reply eq_refl)).
  reflexivity.
Defined.

Lemma script_needs_key_witness :
  main canned_loads ∅ (scripted [] (Responds (mkResponse 200 "chat"))) []
  = (Uncaught missing_api_key, []).
Proof.
  apply (script_needs_the_environment_key canned_loads ∅
           (scripted [] (Responds (mkResponse 200 "chat")))).
  left. reflexivity.
Defined.

Definition ada_old : gmap string (option string) :=
  <["Display Name" := Some "Ada"]>
  (<["Email" := Some "ada@old.example"]> (<["External Id" := Some "7"]> ∅)).

Definition bob : gmap string (option string) :=
  <["Display Name" := Some "Bob"]>
  (<["Email" := Some "bob@example.org"]> (<["External Id" := None]> ∅)).

Definition ada_new : gmap string (option string) :=
  <["Display Name" := Some "Ada"]>
  (<["Email" := Some "ada@new.example"]> (<["External Id" := Some "8"]> ∅)).

Definition three_rows_map : gmap (option string) (gmap string (option string)) :=
  <[Some "Ada" := <["Email" := Some "ada@new.example"]> (<["ExternalId" := Some "8"]> ∅)]>
  (<[Some "Bob" := <["Email" := Some "bob@example.org"]> (<["ExternalId" := None]> ∅)]> ∅).

Lemma user_map_witness :
  three_rows_map !! Some "Ada"
  = Some (<["Email" := Some "ada@new.example"]> (<["ExternalId" := Some "8"]> ∅)).
Proof.
  apply (proj2 (Utils.user_map_keeps_the_last_row_of_a_name
                  [ada_old; bob; ada_new] three_rows_map (Some "Ada")
                  (<["Email" := Some "ada@new.example"]> (<["ExternalId" := Some "8"]> ∅))
                  ltac:(vm_compute; reflexivity))).
  exists 2%nat, ada_new, (Some "ada@new.example"), (Some "8").
  repeat split; try reflexivity.
  intros [|[|[|j]]] row' Hj Hrow'; try lia. done.
Defined.

Lemma missing_column_witness :
  Utils.build_user_map [ada_old; delete "External Id" bob; ada_new]
  = inl (Utils.KeyError "External Id").
Proof.
  apply (proj2 (Utils.missing_column_raises_key_error
                  [ada_old; delete "External Id" bob; ada_new] "External Id")).
  exists 1%nat, (delete "External Id" bob). split; [reflexivity|]. split.
  - intros [|j] row' Hj Hrow'; [|lia]. injection Hrow' as <-.
    repeat split; by eexists.
  - right. left. split; [by eexists|]. split; reflexivity.
Defined.

Lemma bounded_invocations_witness :
  (call_deepseek_chat string brace_loads (<["DEEPSEEK_API_KEY" := ""]> ∅)
     (scripted [] (Responds (mkResponse 200 "{}"))) chat_url hi defaults []).2
  = []
  ∧ ∃ secs,
      (call_deepseek_chat string brace_loads ∅
         (scripted [Responds (mkResponse 503 "busy")] (Responds (mkResponse 200 "{}")))
         chat_url hi keyed []).2 !! 1%nat
      = Some (EvSleep secs).
Proof.
  split.
  - apply (transport_invocations_are_bounded string brace_loads
             (<["DEEPSEEK_API_KEY" := ""]> ∅)
             (scripted [] (Responds (mkResponse 200 "{}"))) chat_url hi defaults).
    split; [left | right]; reflexivity.
  - apply (proj2 (proj2 (proj2 (proj2 (proj2 (proj2
             (transport_invocations_are_bounded string brace_loads ∅
                (scripted [Responds (mkResponse 503 "busy")]
                          (Responds (mkResponse 200 "{}")))
                chat_url hi keyed))))))
             0%nat hi_request);
      [reflexivity | simpl; lia].
Defined.
